(** * Tacotron2Trainer: the loss computation and the diagnostic renderer

    A shallow embedding of [tensorflow_tts/examples/train_tacotron2.py].

    Conventions of the embedding.
    - A float32 tensor handed to the trainer holds finite numbers, modelled as
      real numbers (no rounding, no overflow, no signed zero).  Values the
      trainer computes are [tfloat]: a finite real or one of the IEEE special
      values, because the divisions of the source can leave the finite range.
      What is concluded from this model is what rounding leaves true: the
      shape of a result, which operands it is computed from, its sign, and
      whether it is NaN.  That a result is finite, strictly positive or below
      a bound is not concluded from it, since binary32 arithmetic overflows
      to infinity and underflows to zero; module [Float32] evaluates the mel
      loss in binary32 where that matters.
    - A tensor of rank n is an n-fold nested list; its shape is read off the
      list lengths.
    - An int32 tensor holds integers of [Z]; the source only compares them.
    - A Python [dict] is a finite map from strings; a failing lookup raises
      [KeyError].  Python exceptions are the constructors of [exn], and code
      that can raise returns a [result]. *)

From Stdlib Require Import Reals Lra Lia ZArith List Ascii String SpecFloat.
From stdpp Require Import base gmap strings pretty.
Import ListNotations.

Local Open Scope string_scope.
Local Open Scope R_scope.

(** ** Exceptions and the error monad *)

Inductive exn : Type :=
| KeyError (key : string)
| AttributeError
| IndexError
| TypeError
| ValueError
| InvalidArgumentError
| OSError
| ImportError
| ShapeMismatchError     (* named by the specification *)
| ConfigurationError.    (* named by the specification *)

Inductive result (A : Type) : Type :=
| Ok (a : A)
| Raise (e : exn).

Arguments Ok {A} a.
Arguments Raise {A} e.

Definition bind {A B : Type} (m : result A) (k : A -> result B) : result B :=
  match m with
  | Ok a => k a
  | Raise e => Raise e
  end.

Notation "'let*' x ':=' m 'in' k" := (bind m (fun x => k))
  (at level 10, x name, m at level 100, k at level 200).

Fixpoint traverse {A B : Type} (f : A -> result B) (l : list A)
  : result (list B) :=
  match l with
  | [] => Ok []
  | a :: l' =>
      let* b := f a in
      let* bs := traverse f l' in
      Ok (b :: bs)
  end.

(** ** Values computed in float32 *)

Inductive tfloat : Type :=
| Fin (r : R)
| PInf
| NInf
| NaN.

Definition tf_add (x y : tfloat) : tfloat :=
  match x, y with
  | NaN, _ | _, NaN => NaN
  | PInf, NInf | NInf, PInf => NaN
  | PInf, _ | _, PInf => PInf
  | NInf, _ | _, NInf => NInf
  | Fin a, Fin b => Fin (a + b)
  end.

Definition tf_div (x y : tfloat) : tfloat :=
  match x, y with
  | NaN, _ | _, NaN => NaN
  | (PInf | NInf), (PInf | NInf) => NaN
  | Fin _, (PInf | NInf) => Fin 0
  | PInf, Fin b => if Rlt_dec b 0 then NInf else PInf
  | NInf, Fin b => if Rlt_dec b 0 then PInf else NInf
  | Fin a, Fin b =>
      if Req_dec_T b 0
      then (if Req_dec_T a 0 then NaN else if Rlt_dec 0 a then PInf else NInf)
      else Fin (a / b)
  end.

Definition tf_sum (l : list tfloat) : tfloat := fold_right tf_add (Fin 0) l.

Definition Rsum (l : list R) : R := fold_right Rplus 0 l.

(** [tf.reduce_mean] over one axis: the sum divided by the number of
    elements, 0/0 on an empty axis. *)
Definition reduce_mean (l : list tfloat) : tfloat :=
  tf_div (tf_sum l) (Fin (INR (length l))).



(** A value that is zero, positive or +inf: what a non-negative float32
    computation yields when it may overflow. *)
Definition tf_nonneg_or_inf (x : tfloat) : Prop :=
  x = PInf \/ exists r, x = Fin r /\ 0 <= r.

(** ** Tensors *)

Abbreviation tensor1 := (list R).
Abbreviation tensor2 := (list (list R)).
Abbreviation tensor3 := (list (list (list R))).

(** An int32 tensor of rank 0 or 1, as [tf.reduce_max] receives it. *)
Inductive int_tensor : Type :=
| Scalar (z : Z)
| Vector (v : list Z).

Definition int32_min : Z := (- 2147483648)%Z.

(** [tf.reduce_max] over all axes; the lowest int32 on an empty tensor. *)
Definition tf_reduce_max (t : int_tensor) : Z :=
  match t with
  | Scalar z => z
  | Vector v => fold_right Z.max int32_min v
  end.

(** The integers 0, 1, ..., n - 1. *)
Definition iota (n : nat) : list Z := map Z.of_nat (seq 0 n).

(** [tf.range(limit, dtype=tf.int32)]: the integers of [0, limit), none for
    a limit of 0; a negative limit is rejected ("Requires start <= limit
    when delta > 0"). *)
Definition tf_range (limit : Z) : result (list Z) :=
  if (limit <? 0)%Z then Raise InvalidArgumentError
  else Ok (iota (Z.to_nat limit)).

Definition expand_dims_0 {A : Type} (v : list A) : list (list A) := [v].

Definition expand_dims_1 {A : Type} (v : list A) : list (list A) :=
  map (fun x => [x]) v.

(** [tf.tile(t, [n, 1])]: [n] copies of [t] along axis 0. *)
Definition tf_tile_0 {A : Type} (t : list (list A)) (n : nat)
  : list (list A) :=
  concat (repeat t n).

(** An elementwise binary op along one axis with TensorFlow's broadcasting:
    equal sizes pair up, a size of 1 is stretched, anything else is
    rejected. *)
Definition broadcast {A B C : Type} (f : A -> B -> result C)
  (xs : list A) (ys : list B) : result (list C) :=
  if Nat.eqb (length xs) (length ys)
  then traverse (fun p => f (fst p) (snd p)) (combine xs ys)
  else match xs, ys with
       | [x], _ => traverse (f x) ys
       | _, [y] => traverse (fun x => f x y) xs
       | _, _ => Raise InvalidArgumentError
       end.

Definition pure2 {A B C : Type} (f : A -> B -> C) (a : A) (b : B)
  : result C := Ok (f a b).

Definition broadcast2 {A B C : Type} (f : A -> B -> C)
  : list (list A) -> list (list B) -> result (list (list C)) :=
  broadcast (broadcast (pure2 f)).

Definition broadcast3 {A B C : Type} (f : A -> B -> C)
  : list (list (list A)) -> list (list (list B)) ->
    result (list (list (list C))) :=
  broadcast (broadcast (broadcast (pure2 f))).

Definition map2d {A B : Type} (f : A -> B) : list (list A) -> list (list B) :=
  map (map f).

Definition map3d {A B : Type} (f : A -> B)
  : list (list (list A)) -> list (list (list B)) :=
  map (map (map f)).

(** [tf.reduce_sum(t, axis=[1, 2])] of a rank-3 tensor. *)
Definition reduce_sum_12 (t : tensor3) : tensor1 :=
  map (fun m => Rsum (concat m)) t.

(** Whether two tensors have the same shape. *)
Fixpoint all2 {A B : Type} (p : A -> B -> bool) (xs : list A) (ys : list B)
  : bool :=
  match xs, ys with
  | [], [] => true
  | x :: xs', y :: ys' => p x y && all2 p xs' ys'
  | _, _ => false
  end.

Definition same_shape1 (x y : tensor1) : bool :=
  Nat.eqb (length x) (length y).
Definition same_shape2 : tensor2 -> tensor2 -> bool := all2 same_shape1.
Definition same_shape3 : tensor3 -> tensor3 -> bool := all2 same_shape2.

(** ** Keras loss objects built by [Tacotron2Trainer.compile] *)

(** [tf.keras.losses.MeanAbsoluteError(reduction=NONE)]: the mean over the
    last axis of [|y_pred - y_true|]. *)
Definition mae (y_true y_pred : tensor3) : result (list (list tfloat)) :=
  let* d := broadcast3 (fun p t => Rabs (p - t)) y_pred y_true in
  Ok (map (map (fun row => reduce_mean (map Fin row))) d).

(** [tf.nn.sigmoid_cross_entropy_with_logits(labels=z, logits=x)]. *)
Definition sigmoid_cross_entropy_with_logits (z x : R) : R :=
  Rmax x 0 - x * z + ln (1 + exp (- Rabs x)).

(** Keras' [epsilon()]. *)
Definition epsilon : R := 1 / 10000000.

Definition clip_by_value (x lo hi : R) : R := Rmax lo (Rmin x hi).

(** The cross-entropy Keras computes from probabilities. *)
Definition binary_crossentropy_of_probability (z p : R) : R :=
  let p := clip_by_value p epsilon (1 - epsilon) in
  - (z * ln (p + epsilon) + (1 - z) * ln (1 - p + epsilon)).

(** [tf.keras.losses.BinaryCrossentropy(from_logits, reduction=NONE)]: the
    mean over the last axis of the elementwise cross-entropy. *)
Definition BinaryCrossentropy (from_logits : bool) (y_true y_pred : tensor2)
  : result (list tfloat) :=
  let elementwise :=
    if from_logits then sigmoid_cross_entropy_with_logits
    else binary_crossentropy_of_probability in
  let* l := broadcast2 elementwise y_true y_pred in
  Ok (map (fun row => reduce_mean (map Fin row)) l).

(** [self.binary_crossentropy], as [compile] sets it. *)
Definition binary_crossentropy : tensor2 -> tensor2 -> result (list tfloat) :=
  BinaryCrossentropy true.

(** ** Helpers of [tensorflow_tts.utils] *)

(** Modelled from the spec: [calculate_3d_loss] of [tensorflow_tts.utils] is
    not among the sources.  The spec has the mel loss "reduced over all
    non-batch dimensions to a per-example scalar" and a "shape mismatch
    between prediction and ground truth" fail with ShapeMismatchError.  The
    loss object has already averaged the last axis; the helper averages the
    remaining one. *)
Definition calculate_3d_loss (y_gt y_pred : tensor3)
  (loss_fn : tensor3 -> tensor3 -> result (list (list tfloat)))
  : result (list tfloat) :=
  if same_shape3 y_gt y_pred
  then let* loss := loss_fn y_gt y_pred in
       Ok (map reduce_mean loss)
  else Raise ShapeMismatchError.

(** Modelled from the spec: [calculate_2d_loss] of [tensorflow_tts.utils] is
    not among the sources.  The spec has the stop-token loss "computed
    elementwise then reduced per example to a scalar", which the loss object
    has done on return, and a shape mismatch fail with ShapeMismatchError. *)
Definition calculate_2d_loss (y_gt y_pred : tensor2)
  (loss_fn : tensor2 -> tensor2 -> result (list tfloat))
  : result (list tfloat) :=
  if same_shape2 y_gt y_pred
  then loss_fn y_gt y_pred
  else Raise ShapeMismatchError.

(** ** The batch, the configuration and the model outputs *)

(** A tensor stored in the batch dictionary. *)
Inductive value : Type :=
| VInt1 (v : list Z)       (* int32, rank 1 *)
| VFloat3 (v : tensor3)    (* float32, rank 3 *)
| VStr1 (v : list string). (* string, rank 1 *)

(** A value of the configuration dictionary, as loaded from YAML. *)
Inductive pyval : Type :=
| PyBool (b : bool)
| PyInt (z : Z)
| PyStr (s : string)
| PyNone.

(** What [max_mel_length] is bound to: an int32 tensor, or a Python list
    holding one value of the configuration. *)
Inductive tensor_like : Type :=
| OfTensor (t : int_tensor)
| OfList (x : pyval).

(** What [tf.reduce_max] makes of its argument before reducing it: a tensor
    is taken as it is and a list of one integer becomes a rank-1 int32
    tensor.  A list holding None cannot be converted (ValueError), and the
    string or bool tensor another list converts to is not accepted by the
    reduction (InvalidArgumentError). *)
Definition convert_to_tensor (x : tensor_like) : result int_tensor :=
  match x with
  | OfTensor t => Ok t
  | OfList (PyInt z) => Ok (Vector [z])
  | OfList PyNone => Raise ValueError
  | OfList (PyBool _) | OfList (PyStr _) => Raise InvalidArgumentError
  end.

(** [d[key]] on a Python dict. *)
Definition getitem {V : Type} (d : gmap string V) (key : string) : result V :=
  match d !! key with
  | Some v => Ok v
  | None => Raise (KeyError key)
  end.

(** A batch entry consumed by float32 rank-3 ops; TensorFlow rejects another
    dtype or rank. *)
Definition as_float3 (v : value) : result tensor3 :=
  match v with
  | VFloat3 t => Ok t
  | _ => Raise InvalidArgumentError
  end.

Definition as_int1 (v : value) : result (list Z) :=
  match v with
  | VInt1 t => Ok t
  | _ => Raise InvalidArgumentError
  end.

(** [x is False]. *)
Definition is_False (x : pyval) : bool :=
  match x with
  | PyBool false => true
  | _ => false
  end.

(** (decoder_output, post_mel_outputs, stop_token_predictions,
    alignment_historys) *)
Definition Outputs : Type := tensor3 * tensor3 * tensor2 * tensor3.

(** ** [Tacotron2Trainer.compute_per_example_losses] *)

Section LossComputer.

(** [self.config] *)
Variable config : gmap string pyval.

(** The time extent of the stop-token ground truth, before the final
    [tf.reduce_max]: the greatest length of the batch, or the list
    [[config["max_mel_length"]]]. *)
Definition max_mel_length (batch : gmap string value) : result tensor_like :=
  let* use_fixed_shapes := getitem config "use_fixed_shapes" in
  if is_False use_fixed_shapes
  then let* v := getitem batch "mel_lengths" in
       let* mel_lengths := as_int1 v in
       Ok (OfTensor (Scalar (tf_reduce_max (Vector mel_lengths))))
  else let* m := getitem config "max_mel_length" in
       Ok (OfList m).

Definition stop_gts (batch : gmap string value) : result tensor2 :=
  let* max_mel_length := max_mel_length batch in
  let* t := convert_to_tensor max_mel_length in
  let* positions := tf_range (tf_reduce_max t) in
  let stop_gts := expand_dims_0 positions in
  let* v := getitem batch "mel_lengths" in
  let* mel_lengths := as_int1 v in
  let stop_gts := tf_tile_0 stop_gts (length mel_lengths) in
  let* v := getitem batch "mel_lengths" in
  let* mel_lengths := as_int1 v in
  let* ge := broadcast2 Z.geb stop_gts (expand_dims_1 mel_lengths) in
  Ok (map2d (fun b : bool => if b then 1 else 0) ge).

(** [tf.cast(tf.math.not_equal(x, -1.0), tf.float32)] on one element. *)
Definition not_sentinel (x : R) : R := if Req_dec_T x (-1) then 0 else 1.

Definition attention_masks (g_attentions : tensor3) : tensor3 :=
  map3d not_sentinel g_attentions.

Definition loss_att (batch : gmap string value)
  (alignment_historys : tensor3) : result (list tfloat) :=
  let* v := getitem batch "g_attentions" in
  let* g_attentions := as_float3 v in
  let attention_masks := attention_masks g_attentions in
  let* v := getitem batch "g_attentions" in
  let* g_attentions := as_float3 v in
  let* prod := broadcast3 Rmult alignment_historys g_attentions in
  let* masked := broadcast3 Rmult (map3d Rabs prod) attention_masks in
  let loss_att := reduce_sum_12 masked in
  broadcast (pure2 tf_div)
    (map Fin loss_att) (map Fin (reduce_sum_12 attention_masks)).

Definition dict_metrics_losses
  (stop_token_loss mel_loss_before mel_loss_after loss_att : list tfloat)
  : gmap string (list tfloat) :=
  <["stop_token_loss" := stop_token_loss]>
    (<["mel_loss_before" := mel_loss_before]>
       (<["mel_loss_after" := mel_loss_after]>
          (<["guided_attention_loss" := loss_att]> ∅))).

Definition compute_per_example_losses (batch : gmap string value)
  (outputs : Outputs)
  : result (list tfloat * gmap string (list tfloat)) :=
  let '(decoder_output, post_mel_outputs, stop_token_predictions,
        alignment_historys) := outputs in
  let* v := getitem batch "mel_gts" in
  let* mel_gts := as_float3 v in
  let* mel_loss_before := calculate_3d_loss mel_gts decoder_output mae in
  let* v := getitem batch "mel_gts" in
  let* mel_gts := as_float3 v in
  let* mel_loss_after := calculate_3d_loss mel_gts post_mel_outputs mae in
  let* stop_gts := stop_gts batch in
  let* stop_token_loss :=
    calculate_2d_loss stop_gts stop_token_predictions binary_crossentropy in
  let* loss_att := loss_att batch alignment_historys in
  let* s := broadcast (pure2 tf_add) stop_token_loss mel_loss_before in
  let* s := broadcast (pure2 tf_add) s mel_loss_after in
  let* per_example_losses := broadcast (pure2 tf_add) s loss_att in
  Ok (per_example_losses,
      dict_metrics_losses stop_token_loss mel_loss_before mel_loss_after
        loss_att).

End LossComputer.


(** ** Shapes of well-formed inputs *)

(** The tensor [tf.reduce_max] reduces at the head of [stop_gts]:
    [max_mel_length] once converted. *)
Definition max_mel_length_tensor (config : gmap string pyval)
  (batch : gmap string value) : result int_tensor :=
  let* x := max_mel_length config batch in
  convert_to_tensor x.

(** What the loss computation needs of a batch and a model output: the
    required entries are present, the time extent of the stop-token ground
    truth is not negative, every tensor has the batch's size along axis 0,
    and each prediction has the shape of what it is compared with. *)
Record aligned (config : gmap string pyval) (batch : gmap string value)
  (outputs : Outputs) (mel_gts : tensor3) (mel_lengths : list Z)
  (g_attentions : tensor3) (m : int_tensor) : Prop := {
  al_mel_gts : batch !! "mel_gts" = Some (VFloat3 mel_gts);
  al_mel_lengths : batch !! "mel_lengths" = Some (VInt1 mel_lengths);
  al_g_attentions : batch !! "g_attentions" = Some (VFloat3 g_attentions);
  al_max_mel_length : max_mel_length_tensor config batch = Ok m;
  al_time : (0 <= tf_reduce_max m)%Z;
  al_decoder_output :
    same_shape3 mel_gts (fst (fst (fst outputs))) = true;
  al_post_mel_outputs :
    same_shape3 mel_gts (snd (fst (fst outputs))) = true;
  al_stop_batch : length (snd (fst outputs)) = length mel_lengths;
  al_stop_time :
    Forall (fun row : list R => length row = Z.to_nat (tf_reduce_max m))
      (snd (fst outputs));
  al_alignment_historys : same_shape3 (snd outputs) g_attentions = true;
  al_batch_mel : length mel_gts = length mel_lengths;
  al_batch_att : length g_attentions = length mel_lengths
}.

(** ** Per-example closed forms

    What each loss term is for one example of a well-formed batch. *)

Definition mel_loss_example (gt pred : tensor2) : tfloat :=
  reduce_mean
    (zip_with
       (fun p t =>
          reduce_mean (map Fin (zip_with (fun a b => Rabs (a - b)) p t)))
       pred gt).

Definition stop_row (T len : Z) : tensor1 :=
  map (fun t => if (t >=? len)%Z then 1 else 0) (iota (Z.to_nat T)).

Definition stop_loss_example (z x : tensor1) : tfloat :=
  reduce_mean (map Fin (zip_with sigmoid_cross_entropy_with_logits z x)).

Definition att_example (a g : tensor2) : tfloat :=
  tf_div
    (Fin (Rsum (concat
       (zip_with (zip_with Rmult)
          (map2d Rabs (zip_with (zip_with Rmult) a g))
          (map2d not_sentinel g)))))
    (Fin (Rsum (concat (map2d not_sentinel g)))).

(** ** Notions the properties are stated with *)

(** [T] is the greatest entry of [l]. *)
Definition is_max (T : Z) (l : list Z) : Prop :=
  In T l /\ Forall (fun z => (z <= T)%Z) l.

(** The values an int32 tensor can hold. *)
Definition in_int32 (z : Z) : Prop := (int32_min <= z <= 2147483647)%Z.

(** The number of positions of a prior that are not the sentinel -1.0. *)
Definition is_valid (x : R) : bool := if Req_dec_T x (-1) then false else true.

Definition valid_positions (g : tensor2) : nat :=
  length (List.filter is_valid (concat g)).

(** The guided-attention loss of one example in the words of the
    specification: |alignment * prior| summed over the valid positions of the
    two non-batch axes, divided by the number of valid positions. *)
Definition guided_attention_loss_spec (a g : tensor2) : tfloat :=
  let valid :=
    List.filter (fun p => is_valid (snd p)) (combine (concat a) (concat g)) in
  tf_div (Fin (Rsum (map (fun p => Rabs (fst p * snd p)) valid)))
         (Fin (INR (length valid))).

(** The logistic sigmoid and the cross-entropy of a probability against a
    binary label, as textbooks define them. *)
Definition sigmoid (x : R) : R := 1 / (1 + exp (- x)).

Definition cross_entropy (z p : R) : R :=
  - (z * ln p + (1 - z) * ln (1 - p)).


(** The arithmetic mean of a non-empty list. *)
Definition mean (l : list R) : R := Rsum l / INR (length l).

(** The mean absolute error of one example: the mean over the frames of the
    mean over the bins. *)
Definition mel_l1 (gt pred : tensor2) : R :=
  mean (zip_with
          (fun p t => mean (zip_with (fun a b => Rabs (a - b)) p t))
          pred gt).


(** Every exception [r] can end with satisfies [P]. *)
Definition raises_only {A : Type} (P : exn -> Prop) (r : result A) : Prop :=
  forall e, r = Raise e -> P e.

(** [r] ends with an exception, and not with ConfigurationError. *)
Definition fails_otherwise {A : Type} (r : result A) : Prop :=
  exists e, r = Raise e /\ e <> ConfigurationError.

(** The keys [compute_per_example_losses] reads from the batch. *)
Definition required_keys : list string :=
  ["mel_gts"; "mel_lengths"; "g_attentions"].

Abbreviation absdiff := (zip_with (fun a b : R => Rabs (a - b))).

(** The metric vector returned under [name]. *)
Definition metric (name : string)
  (r : result (list tfloat * gmap string (list tfloat)))
  : option (list tfloat) :=
  match r with
  | Ok (_, metrics) => metrics !! name
  | Raise _ => None
  end.

(** ** A small batch used to exercise the statements *)

Definition config_dynamic : gmap string pyval :=
  <["use_fixed_shapes" := PyBool false]>
    (<["max_mel_length" := PyInt 7]> (<["outdir" := PyStr "exp"]> ∅)).

Definition config_fixed : gmap string pyval :=
  <["use_fixed_shapes" := PyBool true]>
    (<["max_mel_length" := PyInt 5]> (<["outdir" := PyStr "exp"]> ∅)).

Definition mel_gts_2 : tensor3 := [[[1; 2]; [0; 1]]; [[3; 1]; [2; 2]]].
Definition mel_lengths_2 : list Z := [1%Z; 2%Z].
Definition g_attentions_2 : tensor3 := [[[0; 1]; [-1; -1]]; [[0; 1]; [1; 0]]].

Definition batch_2 : gmap string value :=
  <["mel_gts" := VFloat3 mel_gts_2]>
    (<["mel_lengths" := VInt1 mel_lengths_2]>
       (<["g_attentions" := VFloat3 g_attentions_2]>
          (<["utt_ids" := VStr1 ["a"; "b"]]> ∅))).

Definition outputs_2 : Outputs :=
  (mel_gts_2,
   [[[1; 2]; [0; 3]]; [[3; 1]; [2; 2]]],
   [[-4; 4]; [-4; -4]],
   [[[1; 0]; [0; 1]]; [[1; 0]; [0; 1]]]).

Definition batch_3_5 : gmap string value :=
  <["mel_lengths" := VInt1 [3%Z; 5%Z]]> ∅.

(** One example whose attention prior is the sentinel everywhere. *)
Definition batch_masked : gmap string value :=
  <["mel_gts" := VFloat3 [[[1; 2]]]]>
    (<["mel_lengths" := VInt1 [1%Z]]>
       (<["g_attentions" := VFloat3 [[[-1; -1]]]]> ∅)).

Definition outputs_masked : Outputs :=
  ([[[1; 2]]], [[[1; 2]]], [[0]], [[[1 / 2; 1 / 2]]]).

(** A prior of shape [1, 2, 2], to be met by an alignment of shape
    [1, 1, 1]. *)
Definition batch_wide : gmap string value :=
  <["g_attentions" := VFloat3 [[[0; 1]; [1; 0]]]]> ∅.

(** ** The mel loss in binary32

    [mae] and [calculate_3d_loss] once more, with the arithmetic of float32
    tensors in place of the real numbers: IEEE 754 binary32 with rounding to
    nearest, ties to even, as [SpecFloat] defines it.  A sum is accumulated
    as in [tf_sum]; its order matters to none of the values below. *)

Module Float32.

Definition prec : Z := 24.
Definition emax : Z := 128.

Abbreviation float32 := spec_float.
Abbreviation tensor3 := (list (list (list float32))).

Definition zero : float32 := S754_zero false.


(** The float32 of a tensor size. *)
Definition of_nat (n : nat) : float32 :=
  binary_normalize prec emax (Z.of_nat n) 0 false.

Definition reduce_sum (l : list float32) : float32 :=
  fold_right (SFadd prec emax) zero l.

(** [tf.reduce_mean] over one axis. *)
Definition reduce_mean (l : list float32) : float32 :=
  SFdiv prec emax (reduce_sum l) (of_nat (length l)).

Definition same_shape3 : tensor3 -> tensor3 -> bool :=
  all2 (all2 (fun x y : list float32 => Nat.eqb (length x) (length y))).

(** [tf.keras.losses.MeanAbsoluteError(reduction=NONE)]: the mean over the
    last axis of [|y_pred - y_true|]. *)
Definition mae (y_true y_pred : tensor3) : result (list (list float32)) :=
  let* d :=
    broadcast3 (fun p t => SFabs (SFsub prec emax p t)) y_pred y_true in
  Ok (map (map reduce_mean) d).

(** Modelled from the spec: [calculate_3d_loss] of [tensorflow_tts.utils]
    is not among the sources.  As above: the mel loss is "reduced over all
    non-batch dimensions to a per-example scalar", and a shape mismatch
    fails with ShapeMismatchError. *)
Definition calculate_3d_loss (y_gt y_pred : tensor3)
  (loss_fn : tensor3 -> tensor3 -> result (list (list float32)))
  : result (list float32) :=
  if same_shape3 y_gt y_pred
  then let* loss := loss_fn y_gt y_pred in
       Ok (map reduce_mean loss)
  else Raise ShapeMismatchError.



End Float32.

(** ** [Tacotron2Trainer.generate_and_save_intermediate_result] *)

Module DiagnosticRenderer.

(** What a name of the method can be bound to. *)
Inductive obj (A : Type) : Type :=
| PerReplica (values : list A)  (* the tensors of a sharded collection *)
| Tensor (v : A)                (* an eager tensor *)
| Ndarray (v : A).              (* a numpy array *)

Arguments PerReplica {A} values.
Arguments Tensor {A} v.
Arguments Ndarray {A} v.

(** [x.values[0].numpy()] *)
Definition values_0_numpy {A : Type} (x : obj A) : result A :=
  match x with
  | PerReplica (v :: _) => Ok v
  | PerReplica [] => Raise IndexError
  | Tensor _ | Ndarray _ => Raise AttributeError
  end.

(** [x.numpy()] *)
Definition numpy {A : Type} (x : obj A) : result A :=
  match x with
  | Tensor v => Ok v
  | PerReplica _ | Ndarray _ => Raise AttributeError
  end.

(** [os.path.join(a, b)] *)
Definition starts_with_slash (s : string) : bool :=
  match s with
  | String "/"%char _ => true
  | _ => false
  end.

Fixpoint ends_with_slash (s : string) : bool :=
  match s with
  | EmptyString => false
  | String c EmptyString => Ascii.eqb c "/"%char
  | String _ s' => ends_with_slash s'
  end.

Definition os_path_join (a b : string) : string :=
  if starts_with_slash b then b
  else if String.eqb a "" || ends_with_slash a then a ++ b
  else a ++ "/" ++ b.

(** [tf.reshape(t, (-1, 80))] of a rank-2 tensor. *)
Fixpoint rows_of_80 (fuel : nat) (l : list R) : tensor2 :=
  match fuel, l with
  | 0%nat, _ | _, [] => []
  | S fuel', _ => firstn 80 l :: rows_of_80 fuel' (skipn 80 l)
  end.

Definition tf_reshape_80 (t : tensor2) : result tensor2 :=
  let flat := concat t in
  if Nat.eqb (length flat mod 80) 0
  then Ok (rows_of_80 (length flat) flat)
  else Raise InvalidArgumentError.

Section Renderer.

(** The type of an utterance id and its rendering by an f-string. *)
Variable U : Type.
Variable format_id : U -> string.

(** The collaborators the method calls: which of them fail, and how. *)
Record World : Type := {
  import_pyplot : option exn;
  one_step_predict :
    result (obj tensor3 * obj tensor3 * obj tensor2 * obj tensor3);
  makedirs_error : string -> option exn;
  plot_error : string -> option exn;
  savefig_error : string -> option exn
}.

Record Batch : Type := {
  mel_gts : option (obj tensor3);
  utt_ids : option (obj (list U))
}.

Record FileSystem : Type := {
  existing : gset string;
  written : list string
}.

(** Code that reads and writes the file system and can raise; the file
    system a raise leaves behind is kept. *)
Definition io (A : Type) : Type := FileSystem -> FileSystem * result A.

Definition io_ret {A : Type} (a : A) : io A := fun fs => (fs, Ok a).

Definition io_bind {A B : Type} (m : io A) (k : A -> io B) : io B :=
  fun fs =>
    match m fs with
    | (fs', Ok a) => k a fs'
    | (fs', Raise e) => (fs', Raise e)
    end.

Definition lift {A : Type} (r : result A) : io A := fun fs => (fs, r).

Definition check (err : option exn) : io unit :=
  match err with
  | Some e => lift (Raise e)
  | None => io_ret tt
  end.

Notation "'do' x <- m ; k" := (io_bind m (fun x => k))
  (at level 10, x name, m at level 100, k at level 200).

Fixpoint for_each {A : Type} (body : A -> io unit) (l : list A)
  : io unit :=
  match l with
  | [] => io_ret tt
  | a :: l' => do _ <- body a; for_each body l'
  end.

Variable w : World.

Definition os_path_exists (p : string) : io bool :=
  fun fs => (fs, Ok (bool_decide (p ∈ existing fs))).

Definition os_makedirs (p : string) : io unit :=
  do _ <- check (makedirs_error w p);
  fun fs =>
    ({| existing := {[ p ]} ∪ existing fs; written := written fs |},
     Ok tt).

Definition plt_savefig (p : string) : io unit :=
  do _ <- check (savefig_error w p);
  fun fs =>
    ({| existing := {[ p ]} ∪ existing fs;
        written := written fs ++ [p] |},
     Ok tt).

(** The calls that draw one figure, from [plt.figure] to
    [plt.tight_layout]. *)
Definition plot (figname : string) : io unit :=
  check (plot_error w figname).

(** The [except Exception] branch, entered with the names as the [try]
    block left them. *)
Definition convert_plain
  (decoder_output mel_outputs mel_gts alignment_historys : obj tensor3)
  (utt_ids : obj (list U))
  : result (tensor3 * tensor3 * tensor3 * tensor3 * list U) :=
  let* mels_before := numpy decoder_output in
  let* mels_after := numpy mel_outputs in
  let* mel_gts := numpy mel_gts in
  let* alignment_historys := numpy alignment_historys in
  let* utt_ids := numpy utt_ids in
  Ok (mels_before, mels_after, mel_gts, alignment_historys, utt_ids).

(** The [try] block with its handler.  The block rebinds [mel_gts],
    [alignment_historys] and [utt_ids] to numpy arrays as it goes. *)
Definition convert
  (decoder_output mel_outputs mel_gts alignment_historys : obj tensor3)
  (utt_ids : obj (list U))
  : result (tensor3 * tensor3 * tensor3 * tensor3 * list U) :=
  match values_0_numpy decoder_output with
  | Raise _ =>
      convert_plain decoder_output mel_outputs mel_gts
        alignment_historys utt_ids
  | Ok mels_before =>
  match values_0_numpy mel_outputs with
  | Raise _ =>
      convert_plain decoder_output mel_outputs mel_gts
        alignment_historys utt_ids
  | Ok mels_after =>
  match values_0_numpy mel_gts with
  | Raise _ =>
      convert_plain decoder_output mel_outputs mel_gts
        alignment_historys utt_ids
  | Ok gts =>
  match values_0_numpy alignment_historys with
  | Raise _ =>
      convert_plain decoder_output mel_outputs (Ndarray gts)
        alignment_historys utt_ids
  | Ok als =>
  match values_0_numpy utt_ids with
  | Raise _ =>
      convert_plain decoder_output mel_outputs (Ndarray gts)
        (Ndarray als) utt_ids
  | Ok ids => Ok (mels_before, mels_after, gts, als, ids)
  end end end end end.

(** The body of the loop for the example of index [idx]. *)
Definition save_example (steps : nat) (dirname : string)
  (utt_ids : list U)
  (item : nat * (tensor2 * tensor2 * tensor2 * tensor2)) : io unit :=
  let '(idx, (mel_gt, mel_before, mel_after, alignment_history)) :=
    item in
  do mel_gt <- lift (tf_reshape_80 mel_gt);
  do mel_before <- lift (tf_reshape_80 mel_before);
  do mel_after <- lift (tf_reshape_80 mel_after);
  do utt_id <-
    lift (match utt_ids !! idx with
          | Some u => Ok u
          | None => Raise IndexError
          end);
  let figname := os_path_join dirname (format_id utt_id ++ ".png") in
  do _ <- plot figname;
  do _ <- plt_savefig figname;
  let figname := os_path_join dirname (pretty idx ++ "_alignment.png") in
  do _ <- plot figname;
  plt_savefig figname.

(** [zip(a, b, c, d)] *)
Definition zip4 {A B C D : Type} (a : list A) (b : list B) (c : list C)
  (d : list D) : list (A * B * C * D) :=
  zip_with (fun abc x => (abc, x))
    (zip_with (fun ab x => (ab, x)) (zip_with pair a b) c) d.

(** [enumerate(l, 0)] *)
Definition enumerate {A : Type} (l : list A) : list (nat * A) :=
  zip_with pair (seq 0 (length l)) l.

Definition generate_and_save_intermediate_result
  (config : gmap string pyval) (steps : nat) (batch : Batch) : io unit :=
  do _ <- check (import_pyplot w);
  do outputs <- lift (one_step_predict w);
  let '(decoder_output, mel_outputs, stop_token_predictions,
        alignment_historys) := outputs in
  do mel_gts <-
    lift (match mel_gts batch with
          | Some x => Ok x
          | None => Raise (KeyError "mel_gts")
          end);
  do utt_ids <-
    lift (match utt_ids batch with
          | Some x => Ok x
          | None => Raise (KeyError "utt_ids")
          end);
  do arrays <-
    lift (convert decoder_output mel_outputs mel_gts alignment_historys
            utt_ids);
  let '(mels_before, mels_after, mel_gts, alignment_historys, utt_ids) :=
    arrays in
  do outdir <- lift (getitem config "outdir");
  do outdir <-
    lift (match outdir with
          | PyStr s => Ok s
          | _ => Raise TypeError
          end);
  let dirname :=
    os_path_join outdir ("predictions/" ++ pretty steps ++ "steps") in
  do found <- os_path_exists dirname;
  do _ <- (if found then io_ret tt else os_makedirs dirname);
  for_each (save_example steps dirname utt_ids)
    (enumerate (zip4 mel_gts mels_before mels_after alignment_historys)).

End Renderer.

(** A world where every collaborator works and the prediction is one
    unsharded example, and one where the output directory cannot be
    created. *)
Definition mel_80 : tensor3 := [[repeat 0 80]].

Definition world_plain : World :=
  {| import_pyplot := None;
     one_step_predict :=
       Ok (Tensor mel_80, Tensor mel_80, Tensor [[0]], Tensor [[[1]]]);
     makedirs_error := fun _ => None;
     plot_error := fun _ => None;
     savefig_error := fun _ => None |}.

Definition world_denied : World :=
  {| import_pyplot := None;
     one_step_predict :=
       Ok (Tensor mel_80, Tensor mel_80, Tensor [[0]], Tensor [[[1]]]);
     makedirs_error := fun _ => Some OSError;
     plot_error := fun _ => None;
     savefig_error := fun _ => None |}.


Definition batch_plain : Batch string :=
  {| mel_gts := Some (Tensor mel_80); utt_ids := Some (Tensor ["utt0"]) |}.

Definition fs_empty : FileSystem := {| existing := ∅; written := [] |}.

Definition fs_ready : FileSystem :=
  {| existing := {[ "exp/predictions/0steps" ]}; written := [] |}.

End DiagnosticRenderer.

(** ** The rest of the trainer *)

(** [self.list_metrics_name], as [__init__] sets it. *)
Definition list_metrics_name : list string :=
  ["stop_token_loss"; "mel_loss_before"; "mel_loss_after";
   "guided_attention_loss"].



(** A configuration whose "use_fixed_shapes" is the integer 0. *)
Definition config_zero : gmap string pyval :=
  <["use_fixed_shapes" := PyInt 0]> (<["max_mel_length" := PyInt 3]> ∅).

(** The figures the renderer saves for the examples [first], ...,
    [first + n - 1]: the mel figure named after the utterance id, then the
    alignment figure named after the index. *)
Definition figure_names {U : Type} (format_id : U -> string)
  (dirname : string) (utt_ids : list U) (first n : nat) : list string :=
  flat_map
    (fun idx =>
       match utt_ids !! idx with
       | Some u =>
           [DiagnosticRenderer.os_path_join dirname (format_id u ++ ".png");
            DiagnosticRenderer.os_path_join dirname
              (pretty idx ++ "_alignment.png")]
       | None => []
       end)
    (seq first n).

(** The world [w] with another outcome for [os.makedirs]. *)
Definition with_makedirs_error (w : DiagnosticRenderer.World)
  (f : string -> option exn) : DiagnosticRenderer.World :=
  {| DiagnosticRenderer.import_pyplot := DiagnosticRenderer.import_pyplot w;
     DiagnosticRenderer.one_step_predict :=
       DiagnosticRenderer.one_step_predict w;
     DiagnosticRenderer.makedirs_error := f;
     DiagnosticRenderer.plot_error := DiagnosticRenderer.plot_error w;
     DiagnosticRenderer.savefig_error := DiagnosticRenderer.savefig_error w |}.

(** [fs'] holds everything [fs] holds: no path has disappeared and the
    record of written figures has only been extended. *)
Definition grows (fs fs' : DiagnosticRenderer.FileSystem) : Prop :=
  DiagnosticRenderer.existing fs ⊆ DiagnosticRenderer.existing fs'
  /\ exists more : list string,
       DiagnosticRenderer.written fs' =
       (DiagnosticRenderer.written fs ++ more)%list.

Definition io_grows {A : Type} (m : DiagnosticRenderer.io A) : Prop :=
  forall fs, grows fs (fst (m fs)).

(** A world where no collaborator of the renderer fails. *)
Definition healthy (w : DiagnosticRenderer.World) : Prop :=
  DiagnosticRenderer.import_pyplot w = None
  /\ (forall p, DiagnosticRenderer.makedirs_error w p = None)
  /\ (forall p, DiagnosticRenderer.plot_error w p = None)
  /\ (forall p, DiagnosticRenderer.savefig_error w p = None).

(** A mel example whose number of values is a multiple of 80. *)
Definition reshapable (t : tensor2) : Prop :=
  (length (concat t) mod 80 = 0)%nat.

(** Drawing the figure [p] and saving it: what the loop does twice for each
    example. *)
Definition draw_and_save (w : DiagnosticRenderer.World) (p : string)
  : DiagnosticRenderer.io unit :=
  DiagnosticRenderer.io_bind (DiagnosticRenderer.plot w p)
    (fun _ => DiagnosticRenderer.plt_savefig w p).

(** The figure [p] is drawn and saved without error. *)
Definition figure_ok (w : DiagnosticRenderer.World) (p : string) : Prop :=
  DiagnosticRenderer.plot_error w p = None
  /\ DiagnosticRenderer.savefig_error w p = None.

(** Drawing or saving the figure [p] raises [e]. *)
Definition figure_fails (w : DiagnosticRenderer.World) (p : string)
  (e : exn) : Prop :=
  DiagnosticRenderer.plot_error w p = Some e
  \/ (DiagnosticRenderer.plot_error w p = None
      /\ DiagnosticRenderer.savefig_error w p = Some e).

(** A world where saving the alignment figure of the first example fails,
    and nothing else does. *)
Definition world_alignment_fails : DiagnosticRenderer.World :=
  {| DiagnosticRenderer.import_pyplot := None;
     DiagnosticRenderer.one_step_predict :=
       Ok (DiagnosticRenderer.Tensor DiagnosticRenderer.mel_80,
           DiagnosticRenderer.Tensor DiagnosticRenderer.mel_80,
           DiagnosticRenderer.Tensor [[0]],
           DiagnosticRenderer.Tensor [[[1]]]);
     DiagnosticRenderer.makedirs_error := fun _ => None;
     DiagnosticRenderer.plot_error := fun _ => None;
     DiagnosticRenderer.savefig_error :=
       fun p =>
         if String.eqb p "exp/predictions/0steps/0_alignment.png"
         then Some OSError else None |}.

(** ** The step methods *)

Module TrainerSteps.

(** Which function object an attribute such as [self.one_step_forward]
    holds: the one the base trainer installed, or
    [tf.function(self._one_step_..., experimental_relax_shapes=True)]. *)
Inductive callable : Type :=
| Inherited
| RelaxedShapes.

Section Steps.

(** What the base trainer owns besides the attributes below: the model, the
    optimizer, the metric accumulators, the finish flag. *)
Variable Rest : Type.

(** The trainer object, as far as the step methods read or write it. *)
Record Trainer : Type := {
  already_apply_input_signature : pyval;
  one_step_forward : callable;
  one_step_evaluate : callable;
  one_step_predict : callable;
  steps : Z;
  tqdm : Z;
  rest : Rest
}.

(** Calling [self.one_step_forward(batch)], and [self._check_train_finish()]
    of the base trainer, which reads [self.steps]: both belong to the base
    trainer and act on what it owns.  Each gives the state it leaves behind,
    which a call that raises may have changed already, and whether it
    raised. *)
Variable call_one_step_forward :
  callable -> gmap string value -> Rest -> Rest * result unit.
Variable _check_train_finish : Z -> Rest -> Rest * result unit.

(** The call of [self._model] on the entries of the batch with a given
    [training] flag, and [update_eval_metrics] of the base trainer. *)
Variable _model : gmap string value -> bool -> Rest -> result Outputs.
Variable update_eval_metrics :
  gmap string (list tfloat) -> Rest -> result Rest.

Variable config : gmap string pyval.

(** A method: the trainer it leaves behind, and whether it raised. *)
Definition method : Type := Trainer -> Trainer * result unit.

Definition _train_step (batch : gmap string value) : method :=
  fun self =>
    let self :=
      if is_False (already_apply_input_signature self)
      then {| already_apply_input_signature := PyBool true;
              one_step_forward := RelaxedShapes;
              one_step_evaluate := RelaxedShapes;
              one_step_predict := RelaxedShapes;
              steps := steps self;
              tqdm := tqdm self;
              rest := rest self |}
      else self in
    match call_one_step_forward (one_step_forward self) batch (rest self)
    with
    | (r, Raise e) =>
        ({| already_apply_input_signature :=
              already_apply_input_signature self;
            one_step_forward := one_step_forward self;
            one_step_evaluate := one_step_evaluate self;
            one_step_predict := one_step_predict self;
            steps := steps self;
            tqdm := tqdm self;
            rest := r |}, Raise e)
    | (r, Ok _) =>
        let self :=
          {| already_apply_input_signature :=
               already_apply_input_signature self;
             one_step_forward := one_step_forward self;
             one_step_evaluate := one_step_evaluate self;
             one_step_predict := one_step_predict self;
             steps := (steps self + 1)%Z;
             tqdm := (tqdm self + 1)%Z;
             rest := r |} in
        match _check_train_finish (steps self) (rest self) with
        | (r', res) =>
            ({| already_apply_input_signature :=
                  already_apply_input_signature self;
                one_step_forward := one_step_forward self;
                one_step_evaluate := one_step_evaluate self;
                one_step_predict := one_step_predict self;
                steps := steps self;
                tqdm := tqdm self;
                rest := r' |}, res)
        end
    end.

(** [_train_step] on each batch in turn, until one raises. *)
Fixpoint train_steps (batches : list (gmap string value)) : method :=
  fun self =>
    match batches with
    | [] => (self, Ok tt)
    | batch :: batches' =>
        match _train_step batch self with
        | (self', Ok _) => train_steps batches' self'
        | (self', Raise e) => (self', Raise e)
        end
    end.

Definition _one_step_predict_per_replica (batch : gmap string value)
  (r : Rest) : result Outputs :=
  _model batch true r.

Definition _one_step_evaluate_per_replica (batch : gmap string value)
  (r : Rest) : result Rest :=
  let* outputs := _model batch true r in
  let* losses := compute_per_example_losses config batch outputs in
  let '(_, dict_metrics_losses) := losses in
  update_eval_metrics dict_metrics_losses r.

End Steps.

End TrainerSteps.

(** Two mel examples met by a single prior, and by three. *)
Definition batch_one_prior : gmap string value :=
  <["mel_gts" := VFloat3 mel_gts_2]>
    (<["mel_lengths" := VInt1 mel_lengths_2]>
       (<["g_attentions" := VFloat3 [[[0; 1]; [-1; -1]]]]> ∅)).

Definition batch_three_priors : gmap string value :=
  <["mel_gts" := VFloat3 mel_gts_2]>
    (<["mel_lengths" := VInt1 mel_lengths_2]>
       (<["g_attentions" := VFloat3 [[[0]]; [[0]]; [[0]]]]> ∅)).
(** ** The error monad and broadcasting on inputs of equal shape *)

Lemma traverse_pure {A B : Type} (f : A -> B) (l : list A) :
  traverse (fun a => Ok (f a)) l = Ok (map f l).
Proof.
  induction l as [|a l IH]; simpl; [reflexivity|].
  rewrite IH. reflexivity.
Qed.

Lemma traverse_ext_in {A B : Type} (f g : A -> result B) (l : list A) :
  (forall a, In a l -> f a = g a) -> traverse f l = traverse g l.
Proof.
  induction l as [|a l IH]; intros H; simpl; [reflexivity|].
  rewrite (H a) by (left; reflexivity).
  rewrite IH; [reflexivity|].
  intros b Hb. apply H. right. exact Hb.
Qed.

Lemma zip_with_combine {A B C : Type} (h : A -> B -> C) (xs : list A)
  (ys : list B) :
  map (fun p => h (fst p) (snd p)) (combine xs ys) = zip_with h xs ys.
Proof.
  revert ys. induction xs as [|x xs IH]; intros [|y ys]; simpl; try reflexivity.
  rewrite IH. reflexivity.
Qed.

Lemma broadcast_zip {A B C : Type} (f : A -> B -> result C) (h : A -> B -> C)
  (xs : list A) (ys : list B) :
  length xs = length ys ->
  (forall x y, In (x, y) (combine xs ys) -> f x y = Ok (h x y)) ->
  broadcast f xs ys = Ok (zip_with h xs ys).
Proof.
  intros Hlen Hf. unfold broadcast.
  rewrite Hlen, Nat.eqb_refl.
  rewrite (traverse_ext_in _ (fun p => Ok (h (fst p) (snd p)))).
  - rewrite traverse_pure, zip_with_combine. reflexivity.
  - intros [x y] Hin. simpl. apply Hf. exact Hin.
Qed.

Lemma broadcast_pure2 {A B C : Type} (h : A -> B -> C) (xs : list A)
  (ys : list B) :
  length xs = length ys ->
  broadcast (pure2 h) xs ys = Ok (zip_with h xs ys).
Proof.
  intros Hlen. apply broadcast_zip; [exact Hlen|]. reflexivity.
Qed.

Lemma all2_length {A B : Type} (p : A -> B -> bool) (xs : list A)
  (ys : list B) :
  all2 p xs ys = true -> length xs = length ys.
Proof.
  revert ys. induction xs as [|x xs IH]; intros [|y ys] H; simpl in *;
    try discriminate; [reflexivity|].
  apply andb_prop in H as [_ H]. f_equal. apply IH. exact H.
Qed.

Lemma all2_combine {A B : Type} (p : A -> B -> bool) (xs : list A)
  (ys : list B) :
  all2 p xs ys = true ->
  forall x y, In (x, y) (combine xs ys) -> p x y = true.
Proof.
  revert ys. induction xs as [|x xs IH]; intros [|y ys] H a b Hin;
    simpl in *; try discriminate; try contradiction.
  apply andb_prop in H as [Hp H].
  destruct Hin as [Heq|Hin].
  - inversion Heq; subst. exact Hp.
  - eapply IH; eassumption.
Qed.

Lemma broadcast2_same_shape (h : R -> R -> R) (x y : tensor2) :
  same_shape2 x y = true ->
  broadcast2 h x y = Ok (zip_with (zip_with h) x y).
Proof.
  intros H. unfold broadcast2.
  apply broadcast_zip; [eapply all2_length; exact H|].
  intros r s Hin. apply broadcast_pure2.
  apply Nat.eqb_eq. exact (all2_combine _ _ _ H r s Hin).
Qed.

Lemma broadcast3_same_shape (h : R -> R -> R) (x y : tensor3) :
  same_shape3 x y = true ->
  broadcast3 h x y = Ok (zip_with (zip_with (zip_with h)) x y).
Proof.
  intros H. unfold broadcast3.
  apply broadcast_zip; [eapply all2_length; exact H|].
  intros r s Hin. apply broadcast2_same_shape.
  exact (all2_combine _ _ _ H r s Hin).
Qed.

Lemma all2_sym {A B : Type} (p : A -> B -> bool) (q : B -> A -> bool)
  (xs : list A) (ys : list B) :
  (forall x y, p x y = true -> q y x = true) ->
  all2 p xs ys = true -> all2 q ys xs = true.
Proof.
  intros Hpq. revert ys.
  induction xs as [|x xs IH]; intros [|y ys] H; simpl in *;
    try discriminate; [reflexivity|].
  apply andb_prop in H as [Hp H].
  rewrite (Hpq _ _ Hp), (IH _ H). reflexivity.
Qed.

Lemma same_shape1_sym (x y : tensor1) :
  same_shape1 x y = true -> same_shape1 y x = true.
Proof.
  unfold same_shape1. rewrite !Nat.eqb_eq. congruence.
Qed.

Lemma same_shape2_sym (x y : tensor2) :
  same_shape2 x y = true -> same_shape2 y x = true.
Proof. apply all2_sym, same_shape1_sym. Qed.

Lemma same_shape3_sym (x y : tensor3) :
  same_shape3 x y = true -> same_shape3 y x = true.
Proof. apply all2_sym, same_shape2_sym. Qed.

Lemma all2_zip_with_map {A B C D : Type} (p : A -> B -> bool)
  (q : C -> D -> bool) (u : A -> B -> C) (v : B -> D) (xs : list A)
  (ys : list B) :
  (forall x y, p x y = true -> q (u x y) (v y) = true) ->
  all2 p xs ys = true ->
  all2 q (zip_with u xs ys) (map v ys) = true.
Proof.
  intros Hq. revert ys.
  induction xs as [|x xs IH]; intros [|y ys] H; simpl in *;
    try discriminate; [reflexivity|].
  apply andb_prop in H as [Hp H].
  rewrite (Hq _ _ Hp), (IH _ H). reflexivity.
Qed.

Lemma map_zip_with {A B C D : Type} (f : C -> D) (g : A -> B -> C)
  (xs : list A) (ys : list B) :
  map f (zip_with g xs ys) = zip_with (fun x y => f (g x y)) xs ys.
Proof.
  revert ys. induction xs as [|x xs IH]; intros [|y ys]; simpl;
    try reflexivity.
  rewrite IH. reflexivity.
Qed.

(** *** The mel losses *)

Lemma calculate_3d_loss_mae (gt pred : tensor3) :
  same_shape3 gt pred = true ->
  calculate_3d_loss gt pred mae = Ok (zip_with mel_loss_example gt pred).
Proof.
  intros H. unfold calculate_3d_loss, mae. rewrite H.
  rewrite broadcast3_same_shape by (apply same_shape3_sym; exact H).
  simpl. f_equal.
  clear H. revert pred.
  induction gt as [|g gt IH]; intros [|p pred]; simpl; try reflexivity.
  rewrite IH. f_equal.
  unfold mel_loss_example. f_equal.
  rewrite map_zip_with. reflexivity.
Qed.

(** *** The stop-token ground truth and loss *)

Lemma broadcast_stretch_r {A B C : Type} (h : A -> B -> C) (xs : list A)
  (y : B) :
  broadcast (pure2 h) xs [y] = Ok (map (fun x => h x y) xs).
Proof.
  unfold broadcast.
  destruct xs as [|x [|x' xs]]; simpl; try reflexivity.
  unfold pure2. rewrite traverse_pure. reflexivity.
Qed.

Lemma tf_range_nonneg (T : Z) :
  (0 <= T)%Z -> tf_range T = Ok (iota (Z.to_nat T)).
Proof.
  intros HT. unfold tf_range.
  destruct (Z.ltb_spec T 0) as [Hneg|_]; [lia|reflexivity].
Qed.

Lemma tf_range_negative (T : Z) :
  (T < 0)%Z -> tf_range T = Raise InvalidArgumentError.
Proof.
  intros HT. unfold tf_range.
  destruct (Z.ltb_spec T 0) as [_|Hpos]; [reflexivity|lia].
Qed.

Lemma max_mel_length_tensor_inv (config : gmap string pyval)
  (batch : gmap string value) (m : int_tensor) :
  max_mel_length_tensor config batch = Ok m ->
  exists x, max_mel_length config batch = Ok x /\ convert_to_tensor x = Ok m.
Proof.
  unfold max_mel_length_tensor. intros H.
  destruct (max_mel_length config batch) as [x|e]; [|discriminate].
  exists x. split; [reflexivity|exact H].
Qed.

Lemma stop_gts_closed (config : gmap string pyval)
  (batch : gmap string value) (mel_lengths : list Z) (m : int_tensor) :
  batch !! "mel_lengths" = Some (VInt1 mel_lengths) ->
  max_mel_length_tensor config batch = Ok m ->
  (0 <= tf_reduce_max m)%Z ->
  stop_gts config batch = Ok (map (stop_row (tf_reduce_max m)) mel_lengths).
Proof.
  intros Hl Hm HT.
  destruct (max_mel_length_tensor_inv _ _ _ Hm) as (x & Hx & Hc).
  unfold stop_gts, getitem. rewrite Hx. simpl. rewrite Hc. simpl.
  rewrite (tf_range_nonneg _ HT), Hl. simpl.
  unfold broadcast2, tf_tile_0, expand_dims_0, expand_dims_1.
  set (r := iota (Z.to_nat (tf_reduce_max m))).
  rewrite (broadcast_zip _
             (fun row l => map (fun t => (t >=? hd 0%Z l)%Z) row)).
  - simpl. f_equal. unfold map2d, stop_row. fold r. clear.
    induction mel_lengths as [|len ls IH]; simpl; [reflexivity|].
    rewrite IH. f_equal. rewrite map_map. reflexivity.
  - rewrite length_map. clear.
    induction mel_lengths as [|len ls IH]; simpl; [reflexivity|].
    rewrite IH. reflexivity.
  - intros row l Hin. apply in_combine_r in Hin.
    apply in_map_iff in Hin as [len [<- _]].
    apply broadcast_stretch_r.
Qed.

(** A negative time extent stops the construction at [tf.range]. *)
Lemma stop_gts_negative (config : gmap string pyval)
  (batch : gmap string value) (m : int_tensor) :
  max_mel_length_tensor config batch = Ok m ->
  (tf_reduce_max m < 0)%Z ->
  stop_gts config batch = Raise InvalidArgumentError.
Proof.
  intros Hm HT.
  destruct (max_mel_length_tensor_inv _ _ _ Hm) as (x & Hx & Hc).
  unfold stop_gts. rewrite Hx. simpl. rewrite Hc. simpl.
  rewrite (tf_range_negative _ HT). reflexivity.
Qed.


Lemma calculate_2d_loss_bce (z x : tensor2) :
  same_shape2 z x = true ->
  calculate_2d_loss z x binary_crossentropy =
  Ok (zip_with stop_loss_example z x).
Proof.
  intros H. unfold calculate_2d_loss, binary_crossentropy, BinaryCrossentropy.
  rewrite H, broadcast2_same_shape by exact H.
  simpl. rewrite map_zip_with. reflexivity.
Qed.

Lemma length_iota (n : nat) : length (iota n) = n.
Proof. unfold iota. rewrite length_map, length_seq. reflexivity. Qed.

Lemma same_shape2_stop_gts (T : Z) (mel_lengths : list Z) (x : tensor2) :
  length x = length mel_lengths ->
  Forall (fun row : list R => length row = Z.to_nat T) x ->
  same_shape2 (map (stop_row T) mel_lengths) x = true.
Proof.
  unfold same_shape2. revert x.
  induction mel_lengths as [|len ls IH]; intros [|row x] Hlen Hrow;
    simpl in *; try discriminate; [reflexivity|].
  inversion Hrow as [|? ? Hr Hx]; subst.
  rewrite IH by (try exact Hx; lia).
  unfold same_shape1, stop_row.
  rewrite length_map, length_iota, Hr, Nat.eqb_refl. reflexivity.
Qed.

(** *** The guided-attention loss *)

Lemma same_shape_masked (a g : tensor3) :
  same_shape3 a g = true ->
  same_shape3 (map3d Rabs (zip_with (zip_with (zip_with Rmult)) a g))
    (map3d not_sentinel g) = true.
Proof.
  intros H. unfold map3d, same_shape3. rewrite map_zip_with.
  eapply all2_zip_with_map; [|exact H].
  intros a2 g2 H2. unfold same_shape2. rewrite map_zip_with.
  eapply all2_zip_with_map; [|exact H2].
  intros a1 g1 H1. unfold same_shape1 in *.
  apply Nat.eqb_eq in H1. apply Nat.eqb_eq.
  rewrite !length_map, length_zip_with. lia.
Qed.

Lemma loss_att_closed (batch : gmap string value) (a g : tensor3) :
  batch !! "g_attentions" = Some (VFloat3 g) ->
  same_shape3 a g = true ->
  loss_att batch a = Ok (zip_with att_example a g).
Proof.
  intros Hg H. unfold loss_att, getitem. rewrite Hg. simpl.
  rewrite broadcast3_same_shape by exact H. simpl.
  unfold attention_masks.
  rewrite broadcast3_same_shape by (apply same_shape_masked; exact H).
  simpl. rewrite broadcast_pure2.
  - f_equal. unfold reduce_sum_12, map3d.
    pose proof (all2_length _ _ _ H) as Hlen. clear H Hg.
    revert g Hlen.
    induction a as [|a2 a IH]; intros [|g2 g] Hlen; simpl in *;
      try discriminate; [reflexivity|].
    rewrite IH by lia. reflexivity.
  - unfold reduce_sum_12, map3d.
    rewrite !length_map, length_zip_with, !length_map, length_zip_with.
    apply all2_length in H. lia.
Qed.

(** *** The whole computation on aligned inputs *)

Lemma compute_per_example_losses_aligned (config : gmap string pyval)
  (batch : gmap string value)
  (decoder_output post_mel_outputs : tensor3)
  (stop_token_predictions : tensor2) (alignment_historys : tensor3)
  (mel_gts : tensor3) (mel_lengths : list Z) (g_attentions : tensor3)
  (m : int_tensor) :
  aligned config batch
    (decoder_output, post_mel_outputs, stop_token_predictions,
     alignment_historys) mel_gts mel_lengths g_attentions m ->
  let st := zip_with stop_loss_example
              (map (stop_row (tf_reduce_max m)) mel_lengths)
              stop_token_predictions in
  let mb := zip_with mel_loss_example mel_gts decoder_output in
  let ma := zip_with mel_loss_example mel_gts post_mel_outputs in
  let la := zip_with att_example alignment_historys g_attentions in
  compute_per_example_losses config batch
    (decoder_output, post_mel_outputs, stop_token_predictions,
     alignment_historys) =
  Ok (zip_with tf_add (zip_with tf_add (zip_with tf_add st mb) ma) la,
      dict_metrics_losses st mb ma la)
  /\ length st = length mel_lengths /\ length mb = length mel_lengths
  /\ length ma = length mel_lengths /\ length la = length mel_lengths.
Proof.
  intros [Hgts Hls Hg Hm HT Hdec Hpost Hsb Hst Hal Hbm Hba] st mb ma la.
  cbn [fst snd] in *.
  pose proof (same_shape2_stop_gts _ _ _ Hsb Hst) as Hstop.
  assert (Lst : length st = length mel_lengths).
  { unfold st. rewrite length_zip_with, length_map. lia. }
  assert (Lmb : length mb = length mel_lengths).
  { unfold mb. rewrite length_zip_with.
    apply all2_length in Hdec. lia. }
  assert (Lma : length ma = length mel_lengths).
  { unfold ma. rewrite length_zip_with.
    apply all2_length in Hpost. lia. }
  assert (Lla : length la = length mel_lengths).
  { unfold la. rewrite length_zip_with.
    apply all2_length in Hal. lia. }
  split; [|tauto].
  unfold compute_per_example_losses, getitem. rewrite Hgts. simpl.
  rewrite (calculate_3d_loss_mae _ _ Hdec). simpl.
  rewrite (calculate_3d_loss_mae _ _ Hpost). simpl.
  rewrite (stop_gts_closed _ _ _ _ Hls Hm HT). simpl.
  rewrite (calculate_2d_loss_bce _ _ Hstop). simpl.
  rewrite (loss_att_closed _ _ _ Hg Hal). simpl.
  fold st mb ma la.
  rewrite broadcast_pure2 by lia. simpl.
  rewrite broadcast_pure2 by (rewrite length_zip_with; lia). simpl.
  rewrite broadcast_pure2 by (rewrite !length_zip_with; lia). simpl.
  reflexivity.
Qed.

Lemma aligned_2 :
  aligned config_dynamic batch_2 outputs_2 mel_gts_2 mel_lengths_2
    g_attentions_2 (Scalar 2).
Proof.
  constructor; try reflexivity; try (simpl; lia).
  repeat constructor.
Defined.

(** * Properties of the loss computation *)

(** C1. On every aligned batch and model output,
    [compute_per_example_losses] returns a vector [per_example_losses] whose
    length is the batch size and which is the elementwise sum
    stop_token_loss + mel_loss_before + mel_loss_after +
    guided_attention_loss of the four metric vectors it returns, each of
    which has the batch size too. *)
Theorem per_example_losses_is_sum (config : gmap string pyval)
  (batch : gmap string value) (outputs : Outputs)
  (mel_gts : tensor3) (mel_lengths : list Z) (g_attentions : tensor3)
  (m : int_tensor) :
  aligned config batch outputs mel_gts mel_lengths g_attentions m ->
  exists per metrics st mb ma la,
    compute_per_example_losses config batch outputs = Ok (per, metrics)
    /\ metrics !! "stop_token_loss" = Some st
    /\ metrics !! "mel_loss_before" = Some mb
    /\ metrics !! "mel_loss_after" = Some ma
    /\ metrics !! "guided_attention_loss" = Some la
    /\ length st = length mel_lengths /\ length mb = length mel_lengths
    /\ length ma = length mel_lengths /\ length la = length mel_lengths
    /\ length per = length mel_lengths
    /\ per = zip_with tf_add (zip_with tf_add (zip_with tf_add st mb) ma) la.
Proof.
  destruct outputs as [[[dec post] stop] align]. intros H.
  destruct (compute_per_example_losses_aligned _ _ _ _ _ _ _ _ _ _ H)
    as (Heq & Lst & Lmb & Lma & Lla).
  eexists _, _, _, _, _, _.
  split; [exact Heq|].
  repeat split; try assumption; try reflexivity.
  rewrite length_zip_with, Lla, length_zip_with, Lma, length_zip_with,
    Lst, Lmb.
  lia.
Qed.

Lemma per_example_losses_is_sum_witness :
  exists per metrics st mb ma la,
    compute_per_example_losses config_dynamic batch_2 outputs_2 =
    Ok (per, metrics)
    /\ metrics !! "stop_token_loss" = Some st
    /\ metrics !! "mel_loss_before" = Some mb
    /\ metrics !! "mel_loss_after" = Some ma
    /\ metrics !! "guided_attention_loss" = Some la
    /\ length st = length mel_lengths_2 /\ length mb = length mel_lengths_2
    /\ length ma = length mel_lengths_2 /\ length la = length mel_lengths_2
    /\ length per = length mel_lengths_2
    /\ per = zip_with tf_add (zip_with tf_add (zip_with tf_add st mb) ma) la.
Proof.
  exact (per_example_losses_is_sum _ _ _ _ _ _ _ aligned_2).
Defined.

Lemma lookup_map {A B : Type} (f : A -> B) (l : list A) (i : nat) :
  map f l !! i = f <$> (l !! i).
Proof.
  revert i. induction l as [|a l IH]; intros [|i]; simpl; try reflexivity.
  apply IH.
Qed.

Lemma lookup_iota (n t : nat) :
  (t < n)%nat -> iota n !! t = Some (Z.of_nat t).
Proof.
  intros Ht. unfold iota.
  rewrite lookup_map, lookup_seq_lt by exact Ht. reflexivity.
Qed.

(** C2. The stop-token ground truth built inside
    [compute_per_example_losses] is a [batch, T] matrix whose entry for
    example i and position t is 1.0 when t >= mel_lengths[i] and 0.0
    otherwise; for mel_lengths = [3, 5] and T = 5 its rows are [0,0,0,1,1]
    and [0,0,0,0,0].  T is the time extent handed to [tf.range], which
    takes it when it is not negative. *)
Theorem stop_gts_labels (config : gmap string pyval)
  (batch : gmap string value) (mel_lengths : list Z) (m : int_tensor) :
  batch !! "mel_lengths" = Some (VInt1 mel_lengths) ->
  max_mel_length_tensor config batch = Ok m ->
  (0 <= tf_reduce_max m)%Z ->
  exists gts : tensor2,
    stop_gts config batch = Ok gts
    /\ length gts = length mel_lengths
    /\ (forall (i : nat) (len : Z),
          mel_lengths !! i = Some len ->
          exists row : tensor1,
            gts !! i = Some row
            /\ length row = Z.to_nat (tf_reduce_max m)
            /\ forall t : nat,
                 (t < Z.to_nat (tf_reduce_max m))%nat ->
                 row !! t =
                 Some (if (Z.of_nat t >=? len)%Z then 1 else 0))
    /\ (mel_lengths = [3%Z; 5%Z] -> tf_reduce_max m = 5%Z ->
        gts = [[0; 0; 0; 1; 1]; [0; 0; 0; 0; 0]]).
Proof.
  intros Hl Hm HT. eexists.
  split; [exact (stop_gts_closed _ _ _ _ Hl Hm HT)|].
  split; [apply length_map|]. split.
  - intros i len Hi. exists (stop_row (tf_reduce_max m) len).
    split; [rewrite lookup_map, Hi; reflexivity|]. unfold stop_row.
    split; [rewrite length_map; apply length_iota|].
    intros t Ht. rewrite lookup_map, lookup_iota by exact Ht.
    reflexivity.
  - intros -> ->. reflexivity.
Qed.

Lemma stop_gts_labels_witness :
  exists gts : tensor2,
    stop_gts config_dynamic batch_3_5 = Ok gts
    /\ length gts = length [3%Z; 5%Z]
    /\ (forall (i : nat) (len : Z),
          [3%Z; 5%Z] !! i = Some len ->
          exists row : tensor1,
            gts !! i = Some row
            /\ length row = Z.to_nat (tf_reduce_max (Scalar 5))
            /\ forall t : nat,
                 (t < Z.to_nat (tf_reduce_max (Scalar 5)))%nat ->
                 row !! t =
                 Some (if (Z.of_nat t >=? len)%Z then 1 else 0))
    /\ ([3%Z; 5%Z] = [3%Z; 5%Z] -> tf_reduce_max (Scalar 5) = 5%Z ->
        gts = [[0; 0; 0; 1; 1]; [0; 0; 0; 0; 0]]).
Proof.
  apply (stop_gts_labels config_dynamic batch_3_5 [3%Z; 5%Z] (Scalar 5));
    [reflexivity|reflexivity|simpl; lia].
Defined.

Lemma reduce_max_bounds (l : list Z) :
  Forall (fun z => (z <= fold_right Z.max int32_min l)%Z) l
  /\ (fold_right Z.max int32_min l = int32_min
      \/ In (fold_right Z.max int32_min l) l).
Proof.
  induction l as [|z l [IHall IHin]]; simpl.
  - split; [constructor|left; reflexivity].
  - set (M := fold_right Z.max int32_min l) in *. split.
    + constructor; [lia|].
      eapply Forall_impl; [exact IHall|]. simpl. intros; lia.
    + destruct (Z.max_spec z M) as [[_ ->]|[_ ->]].
      * destruct IHin as [->|Hin]; [left; reflexivity|right; right; exact Hin].
      * right. left. reflexivity.
Qed.

Lemma reduce_max_is_max (l : list Z) :
  l <> [] -> Forall in_int32 l -> is_max (fold_right Z.max int32_min l) l.
Proof.
  intros Hne Hr. destruct (reduce_max_bounds l) as [Hall Hin].
  split; [|exact Hall].
  destruct Hin as [Heq|Hin]; [|exact Hin].
  destruct l as [|z l]; [contradiction|].
  inversion Hr as [|? ? [Hz _] _]; subst.
  inversion Hall as [|? ? Hle _]; subst.
  assert (z = fold_right Z.max int32_min (z :: l)) as Hzeq by lia.
  rewrite <- Hzeq. left. reflexivity.
Qed.

Lemma reduce_max_nonneg (l : list Z) :
  Exists (fun z => (0 <= z)%Z) l -> (0 <= fold_right Z.max int32_min l)%Z.
Proof.
  intros Hex. destruct (reduce_max_bounds l) as [Hall _].
  apply List.Exists_exists in Hex as (z & Hin & Hz).
  pose proof (proj1 (List.Forall_forall _ _) Hall z Hin) as Hle.
  simpl in Hle. lia.
Qed.

Lemma Forall_length_stop_rows (T : Z) (mel_lengths : list Z) :
  Forall (fun row : list R => length row = Z.to_nat T)
    (map (stop_row T) mel_lengths).
Proof.
  apply List.Forall_forall. intros row Hin.
  apply in_map_iff in Hin as [len [<- _]].
  unfold stop_row. rewrite length_map. apply length_iota.
Qed.

Lemma max_mel_length_tensor_dynamic (config : gmap string pyval)
  (batch : gmap string value) (mel_lengths : list Z) :
  config !! "use_fixed_shapes" = Some (PyBool false) ->
  batch !! "mel_lengths" = Some (VInt1 mel_lengths) ->
  max_mel_length_tensor config batch =
  Ok (Scalar (tf_reduce_max (Vector mel_lengths))).
Proof.
  intros Hu Hl. unfold max_mel_length_tensor, max_mel_length, getitem.
  rewrite Hu, Hl. reflexivity.
Qed.

Lemma max_mel_length_tensor_fixed (config : gmap string pyval)
  (batch : gmap string value) (u : pyval) (z : Z) :
  config !! "use_fixed_shapes" = Some u -> is_False u = false ->
  config !! "max_mel_length" = Some (PyInt z) ->
  max_mel_length_tensor config batch = Ok (Vector [z]).
Proof.
  intros Hu Hf Hz. unfold max_mel_length_tensor, max_mel_length, getitem.
  rewrite Hu. simpl. rewrite Hf, Hz. reflexivity.
Qed.

(** C5. The time extent T of the stop-token ground truth is the greatest
    entry of mel_lengths when config["use_fixed_shapes"] is False, and
    config["max_mel_length"] when it is True: the ground truth has one row
    of T labels for each example.  ([tf.range] takes an extent that is not
    negative.) *)
Theorem stop_gts_time_extent (config : gmap string pyval)
  (batch : gmap string value) (mel_lengths : list Z) :
  batch !! "mel_lengths" = Some (VInt1 mel_lengths) ->
  (config !! "use_fixed_shapes" = Some (PyBool false) ->
   Forall in_int32 mel_lengths ->
   Exists (fun len => (0 <= len)%Z) mel_lengths ->
   exists (m : int_tensor) (gts : tensor2),
     max_mel_length_tensor config batch = Ok m
     /\ is_max (tf_reduce_max m) mel_lengths
     /\ stop_gts config batch = Ok gts
     /\ length gts = length mel_lengths
     /\ Forall (fun row : list R => length row = Z.to_nat (tf_reduce_max m))
          gts)
  /\ (forall z : Z,
        config !! "use_fixed_shapes" = Some (PyBool true) ->
        config !! "max_mel_length" = Some (PyInt z) -> in_int32 z ->
        (0 <= z)%Z ->
        exists (m : int_tensor) (gts : tensor2),
          max_mel_length_tensor config batch = Ok m
          /\ tf_reduce_max m = z
          /\ stop_gts config batch = Ok gts
          /\ length gts = length mel_lengths
          /\ Forall (fun row : list R => length row = Z.to_nat z) gts).
Proof.
  intros Hl. split.
  - intros Hu Hr Hex.
    pose proof (max_mel_length_tensor_dynamic _ _ _ Hu Hl) as Hm.
    pose proof (reduce_max_nonneg _ Hex) as HT.
    assert (Hne : mel_lengths <> []).
    { intros ->. inversion Hex. }
    eexists _, _. split; [exact Hm|].
    split; [exact (reduce_max_is_max _ Hne Hr)|].
    split; [exact (stop_gts_closed _ _ _ _ Hl Hm HT)|].
    split; [apply length_map|]. apply Forall_length_stop_rows.
  - intros z Hu Hz Hr Hz0.
    pose proof (max_mel_length_tensor_fixed _ batch _ _ Hu eq_refl Hz) as Hm.
    assert (HT : tf_reduce_max (Vector [z]) = z).
    { simpl. unfold int32_min. lia. }
    assert (HT0 : (0 <= tf_reduce_max (Vector [z]))%Z)
      by (rewrite HT; exact Hz0).
    eexists _, _. split; [exact Hm|]. split; [exact HT|].
    split; [exact (stop_gts_closed _ _ _ _ Hl Hm HT0)|].
    split; [apply length_map|].
    pose proof (Forall_length_stop_rows (tf_reduce_max (Vector [z]))
                  mel_lengths) as Hrow.
    rewrite HT in Hrow |- *. exact Hrow.
Qed.


Lemma stop_gts_time_extent_witness :
  (exists (m : int_tensor) (gts : tensor2),
     max_mel_length_tensor config_dynamic batch_2 = Ok m
     /\ is_max (tf_reduce_max m) mel_lengths_2
     /\ stop_gts config_dynamic batch_2 = Ok gts
     /\ length gts = length mel_lengths_2
     /\ Forall (fun row : list R => length row = Z.to_nat (tf_reduce_max m))
          gts)
  /\ (exists (m : int_tensor) (gts : tensor2),
        max_mel_length_tensor config_fixed batch_2 = Ok m
        /\ tf_reduce_max m = 5%Z
        /\ stop_gts config_fixed batch_2 = Ok gts
        /\ length gts = length mel_lengths_2
        /\ Forall (fun row : list R => length row = Z.to_nat 5) gts).
Proof.
  split.
  - apply (proj1 (stop_gts_time_extent config_dynamic batch_2 mel_lengths_2
                    eq_refl)).
    + reflexivity.
    + repeat constructor; unfold int32_min; lia.
    + left. lia.
  - apply (proj2 (stop_gts_time_extent config_fixed batch_2 mel_lengths_2
                    eq_refl) 5%Z).
    + reflexivity.
    + reflexivity.
    + unfold in_int32, int32_min. lia.
    + lia.
Defined.

(** *** Flattening the two non-batch axes *)

Lemma Rsum_app (l k : list R) : Rsum (l ++ k) = Rsum l + Rsum k.
Proof.
  induction l as [|x l IH]; simpl; [lra|]. rewrite IH. lra.
Qed.

Lemma concat_zip_with (h : R -> R -> R) (x y : tensor2) :
  same_shape2 x y = true ->
  concat (zip_with (zip_with h) x y) = zip_with h (concat x) (concat y).
Proof.
  unfold same_shape2. revert y.
  induction x as [|r x IH]; intros [|s y] H; simpl in *; try discriminate;
    [reflexivity|].
  apply andb_prop in H as [Hr H]. apply Nat.eqb_eq in Hr.
  rewrite IH by exact H. symmetry. apply zip_with_app. exact Hr.
Qed.

Lemma length_concat_same_shape (x y : tensor2) :
  same_shape2 x y = true -> length (concat x) = length (concat y).
Proof.
  unfold same_shape2. revert y.
  induction x as [|r x IH]; intros [|s y] H; simpl in *; try discriminate;
    [reflexivity|].
  apply andb_prop in H as [Hr H]. apply Nat.eqb_eq in Hr.
  rewrite !length_app, (IH _ H), Hr. reflexivity.
Qed.

Lemma same_shape2_masked (a g : tensor2) :
  same_shape2 a g = true ->
  same_shape2 (map2d Rabs (zip_with (zip_with Rmult) a g))
    (map2d not_sentinel g) = true.
Proof.
  intros H. unfold map2d, same_shape2. rewrite map_zip_with.
  eapply all2_zip_with_map; [|exact H].
  intros a1 g1 H1. unfold same_shape1 in *.
  apply Nat.eqb_eq in H1. apply Nat.eqb_eq.
  rewrite !length_map, length_zip_with. lia.
Qed.

Lemma masked_sum_flat (a g : list R) :
  length a = length g ->
  Rsum (zip_with Rmult (map Rabs (zip_with Rmult a g)) (map not_sentinel g)) =
  Rsum (map (fun p => Rabs (fst p * snd p))
          (List.filter (fun p => is_valid (snd p)) (combine a g))).
Proof.
  revert g. induction a as [|x a IH]; intros [|y g] Hlen; simpl in *;
    try discriminate; [reflexivity|].
  rewrite IH by lia. unfold not_sentinel, is_valid.
  destruct (Req_dec_T y (-1)); simpl; lra.
Qed.

Lemma mask_sum_flat (g : list R) :
  Rsum (map not_sentinel g) = INR (length (List.filter is_valid g)).
Proof.
  induction g as [|y g IH]; [reflexivity|].
  cbn [map Rsum fold_right List.filter]. fold (Rsum (map not_sentinel g)).
  rewrite IH. unfold not_sentinel, is_valid.
  destruct (Req_dec_T y (-1)); [lra|].
  cbn [length]. rewrite S_INR. lra.
Qed.

Lemma filter_snd_combine {A B : Type} (f : B -> bool) (a : list A)
  (g : list B) :
  length a = length g ->
  length (List.filter (fun p => f (snd p)) (combine a g)) =
  length (List.filter f g).
Proof.
  revert g. induction a as [|x a IH]; intros [|y g] Hlen; simpl in *;
    try discriminate; [reflexivity|].
  destruct (f y); simpl; rewrite IH by lia; reflexivity.
Qed.

Lemma mask_sum_valid_positions (g : tensor2) :
  Rsum (concat (map2d not_sentinel g)) = INR (valid_positions g).
Proof.
  unfold map2d, valid_positions.
  rewrite <- (concat_map not_sentinel g).
  apply mask_sum_flat.
Qed.

Lemma att_example_valid_positions (a g : tensor2) :
  att_example a g =
  tf_div
    (Fin (Rsum (concat
       (zip_with (zip_with Rmult)
          (map2d Rabs (zip_with (zip_with Rmult) a g))
          (map2d not_sentinel g)))))
    (Fin (INR (valid_positions g))).
Proof.
  unfold att_example. rewrite mask_sum_valid_positions. reflexivity.
Qed.

Lemma att_example_spec (a g : tensor2) :
  same_shape2 a g = true ->
  att_example a g = guided_attention_loss_spec a g.
Proof.
  intros H. rewrite att_example_valid_positions.
  unfold guided_attention_loss_spec.
  rewrite (filter_snd_combine is_valid)
    by (apply length_concat_same_shape; exact H).
  fold (valid_positions g). f_equal. f_equal.
  rewrite concat_zip_with by (apply same_shape2_masked; exact H).
  unfold map2d. rewrite <- !concat_map, concat_zip_with by exact H.
  apply masked_sum_flat. apply length_concat_same_shape. exact H.
Qed.

Lemma all2_lookup {A B : Type} (p : A -> B -> bool) (xs : list A)
  (ys : list B) (i : nat) (x : A) (y : B) :
  all2 p xs ys = true -> xs !! i = Some x -> ys !! i = Some y ->
  p x y = true.
Proof.
  revert ys i. induction xs as [|x' xs IH]; intros [|y' ys] [|i] H Hx Hy;
    simpl in *; try discriminate.
  - apply andb_prop in H as [Hp _]. inversion Hx; inversion Hy; subst.
    exact Hp.
  - apply andb_prop in H as [_ H]. eapply IH; eassumption.
Qed.

Lemma lookup_zip_with_Some_2 {A B C : Type} (f : A -> B -> C) (xs : list A)
  (ys : list B) (i : nat) (x : A) (y : B) :
  xs !! i = Some x -> ys !! i = Some y ->
  zip_with f xs ys !! i = Some (f x y).
Proof.
  intros Hx Hy. rewrite lookup_zip_with, Hx, Hy. reflexivity.
Qed.

Lemma lookup_same_length {A B : Type} (xs : list A) (ys : list B) (i : nat)
  (y : B) :
  length xs = length ys -> ys !! i = Some y -> exists x, xs !! i = Some x.
Proof.
  intros Hlen Hy. apply lookup_lt_Some in Hy.
  destruct (lookup_lt_is_Some_2 xs i) as [x Hx]; [lia|].
  exists x. exact Hx.
Qed.

Lemma metric_aligned (name : string) (config : gmap string pyval)
  (batch : gmap string value)
  (decoder_output post_mel_outputs : tensor3)
  (stop_token_predictions : tensor2) (alignment_historys : tensor3)
  (mel_gts : tensor3) (mel_lengths : list Z) (g_attentions : tensor3)
  (m : int_tensor) :
  aligned config batch
    (decoder_output, post_mel_outputs, stop_token_predictions,
     alignment_historys) mel_gts mel_lengths g_attentions m ->
  metric name
    (compute_per_example_losses config batch
       (decoder_output, post_mel_outputs, stop_token_predictions,
        alignment_historys)) =
  dict_metrics_losses
    (zip_with stop_loss_example
       (map (stop_row (tf_reduce_max m)) mel_lengths) stop_token_predictions)
    (zip_with mel_loss_example mel_gts decoder_output)
    (zip_with mel_loss_example mel_gts post_mel_outputs)
    (zip_with att_example alignment_historys g_attentions) !! name.
Proof.
  intros H.
  destruct (compute_per_example_losses_aligned _ _ _ _ _ _ _ _ _ _ H)
    as [Heq _].
  rewrite Heq. reflexivity.
Qed.



(** *** The division by the number of valid positions *)

Lemma filter_nil_of_length {A : Type} (l : list A) : length l = 0%nat -> l = [].
Proof. destruct l; [reflexivity|discriminate]. Qed.

Lemma guided_attention_loss_spec_no_valid (a g : tensor2) :
  same_shape2 a g = true -> valid_positions g = 0%nat ->
  guided_attention_loss_spec a g = NaN.
Proof.
  intros H Hv. unfold guided_attention_loss_spec.
  pose proof (filter_snd_combine is_valid (concat a) (concat g)
                (length_concat_same_shape _ _ H)) as Hlen.
  fold (valid_positions g) in Hlen. rewrite Hv in Hlen.
  rewrite (filter_nil_of_length _ Hlen). simpl.
  destruct (Req_dec_T 0 0) as [_|Hne]; [reflexivity|contradiction].
Qed.


Lemma is_valid_sentinel : is_valid (-1) = false.
Proof.
  unfold is_valid. destruct (Req_dec_T (-1) (-1)); [reflexivity|contradiction].
Qed.

Lemma aligned_masked :
  aligned config_dynamic batch_masked outputs_masked [[[1; 2]]] [1%Z]
    [[[-1; -1]]] (Scalar 1).
Proof.
  constructor; try reflexivity; try (simpl; lia).
  repeat constructor.
Defined.




(** *** The cross-entropy on logits *)

Lemma ln_sigmoid (x : R) : ln (sigmoid x) = - ln (1 + exp (- x)).
Proof.
  unfold sigmoid. pose proof (exp_pos (- x)) as He.
  replace (1 / (1 + exp (- x))) with (/ (1 + exp (- x))) by (field; lra).
  apply ln_Rinv. lra.
Qed.

Lemma ln_one_minus_sigmoid (x : R) :
  ln (1 - sigmoid x) = - x - ln (1 + exp (- x)).
Proof.
  unfold sigmoid. pose proof (exp_pos (- x)) as He.
  replace (1 - 1 / (1 + exp (- x)))
    with (exp (- x) * / (1 + exp (- x))) by (field; lra).
  rewrite ln_mult; [|exact He|apply Rinv_0_lt_compat; lra].
  rewrite ln_exp, ln_Rinv by lra. lra.
Qed.

Lemma softplus_flip (x : R) : ln (1 + exp x) = x + ln (1 + exp (- x)).
Proof.
  pose proof (exp_pos x) as He. pose proof (exp_pos (- x)) as He'.
  replace (1 + exp x) with (exp x * (1 + exp (- x))).
  - rewrite ln_mult by lra. rewrite ln_exp. reflexivity.
  - rewrite Rmult_plus_distr_l, <- exp_plus.
    replace (x + - x) with 0 by lra. rewrite exp_0. lra.
Qed.

Lemma sigmoid_cross_entropy_with_logits_sigmoid (z x : R) :
  sigmoid_cross_entropy_with_logits z x = cross_entropy z (sigmoid x).
Proof.
  unfold sigmoid_cross_entropy_with_logits, cross_entropy.
  rewrite ln_sigmoid, ln_one_minus_sigmoid.
  destruct (Rle_or_lt 0 x) as [Hx|Hx].
  - rewrite Rmax_left by exact Hx.
    rewrite Rabs_right by lra. lra.
  - rewrite Rmax_right by lra.
    rewrite Rabs_left by exact Hx.
    rewrite Ropp_involutive, softplus_flip. lra.
Qed.

Lemma zip_with_ext_all {A B C : Type} (f g : A -> B -> C) (xs : list A)
  (ys : list B) :
  (forall x y, f x y = g x y) -> zip_with f xs ys = zip_with g xs ys.
Proof.
  intros H. revert ys.
  induction xs as [|x xs IH]; intros [|y ys]; simpl; try reflexivity.
  rewrite H, IH. reflexivity.
Qed.

(** C7. The stop_token_loss of an example is the binary cross-entropy of
    the constructed 0/1 ground truth against the sigmoid of the raw
    stop-token logits (the sigmoid is applied by the loss itself), averaged
    over the time axis into one scalar per example. *)
Theorem stop_token_loss_is_cross_entropy_on_logits
  (config : gmap string pyval) (batch : gmap string value)
  (outputs : Outputs) (mel_gts : tensor3) (mel_lengths : list Z)
  (g_attentions : tensor3) (m : int_tensor) :
  aligned config batch outputs mel_gts mel_lengths g_attentions m ->
  exists (gts : tensor2) (st : list tfloat),
    stop_gts config batch = Ok gts
    /\ metric "stop_token_loss"
         (compute_per_example_losses config batch outputs) = Some st
    /\ length st = length mel_lengths
    /\ forall (i : nat) (z logits : tensor1),
         gts !! i = Some z -> snd (fst outputs) !! i = Some logits ->
         st !! i =
         Some (reduce_mean
                 (map Fin
                    (zip_with (fun z_t x_t => cross_entropy z_t (sigmoid x_t))
                       z logits))).
Proof.
  destruct outputs as [[[dec post] stop] align]. intros H.
  eexists _, _.
  split; [exact (stop_gts_closed _ _ _ _ (al_mel_lengths _ _ _ _ _ _ _ H)
                   (al_max_mel_length _ _ _ _ _ _ _ H)
                   (al_time _ _ _ _ _ _ _ H))|].
  split; [rewrite (metric_aligned _ _ _ _ _ _ _ _ _ _ _ H); reflexivity|].
  destruct H as [_ _ _ _ _ _ _ Hsb _ _ _ _]. cbn [fst snd] in *.
  split.
  - rewrite length_zip_with, length_map. lia.
  - intros i z logits Hz Hx.
    rewrite (lookup_zip_with_Some_2 _ _ _ _ _ _ Hz Hx).
    unfold stop_loss_example. do 3 f_equal.
    apply zip_with_ext_all, sigmoid_cross_entropy_with_logits_sigmoid.
Qed.

Lemma stop_token_loss_is_cross_entropy_on_logits_witness :
  exists (gts : tensor2) (st : list tfloat),
    stop_gts config_dynamic batch_2 = Ok gts
    /\ metric "stop_token_loss"
         (compute_per_example_losses config_dynamic batch_2 outputs_2) =
       Some st
    /\ length st = length mel_lengths_2
    /\ forall (i : nat) (z logits : tensor1),
         gts !! i = Some z -> snd (fst outputs_2) !! i = Some logits ->
         st !! i =
         Some (reduce_mean
                 (map Fin
                    (zip_with (fun z_t x_t => cross_entropy z_t (sigmoid x_t))
                       z logits))).
Proof.
  exact (stop_token_loss_is_cross_entropy_on_logits _ _ _ _ _ _ _ aligned_2).
Defined.

(** *** Means of absolute errors *)

Lemma tf_sum_Fin (l : list R) : tf_sum (map Fin l) = Fin (Rsum l).
Proof.
  induction l as [|x l IH]; [reflexivity|].
  cbn [map tf_sum fold_right]. fold (tf_sum (map Fin l)).
  rewrite IH. reflexivity.
Qed.

Lemma INR_length_pos {A : Type} (l : list A) : l <> [] -> 0 < INR (length l).
Proof.
  intros Hne. apply lt_0_INR. destruct l; [contradiction|simpl; lia].
Qed.

Lemma reduce_mean_Fin (l : list R) :
  l <> [] -> reduce_mean (map Fin l) = Fin (mean l).
Proof.
  intros Hne. unfold reduce_mean, mean.
  rewrite tf_sum_Fin, length_map. unfold tf_div.
  destruct (Req_dec_T (INR (length l)) 0) as [He|_]; [|reflexivity].
  pose proof (INR_length_pos l Hne). lra.
Qed.


















Lemma tf_nonneg_or_inf_not_nan (x : tfloat) : tf_nonneg_or_inf x -> x <> NaN.
Proof. intros [->|[r [-> _]]]; discriminate. Qed.





(** *** Signs of the loss terms *)







Lemma Forall_zip_with_both {A B C : Type} (P : C -> Prop)
  (Q : A -> Prop) (S : B -> Prop) (f : A -> B -> C) (xs : list A)
  (ys : list B) :
  (forall x y, Q x -> S y -> P (f x y)) ->
  Forall Q xs -> Forall S ys -> Forall P (zip_with f xs ys).
Proof.
  intros Hf HQ. revert ys.
  induction HQ as [|x xs Hx _ IH]; intros ys HS;
    destruct HS as [|y ys Hy HS]; simpl; constructor.
  - apply Hf; assumption.
  - apply IH. exact HS.
Qed.

Lemma Forall_true {A : Type} (l : list A) : Forall (fun _ => True) l.
Proof. induction l; constructor; trivial. Qed.


Lemma is_valid_other (x : R) : x <> -1 -> is_valid x = true.
Proof.
  intros Hx. unfold is_valid.
  destruct (Req_dec_T x (-1)); [contradiction|reflexivity].
Qed.


(** *** Which exceptions the computation can raise *)

Section RaisesOnly.

Variable P : exn -> Prop.

Lemma raises_only_Ok {A : Type} (a : A) : raises_only P (Ok a).
Proof. intros e He. discriminate. Qed.

Lemma raises_only_Raise {A : Type} (e : exn) :
  P e -> raises_only P (@Raise A e).
Proof. intros He e' Heq. inversion Heq; subst. exact He. Qed.

Lemma raises_only_bind {A B : Type} (m : result A) (k : A -> result B) :
  raises_only P m -> (forall a, raises_only P (k a)) ->
  raises_only P (bind m k).
Proof.
  intros Hm Hk. destruct m as [a|e]; simpl; [apply Hk|].
  apply raises_only_Raise, Hm. reflexivity.
Qed.

Lemma raises_only_traverse {A B : Type} (f : A -> result B) (l : list A) :
  (forall a, raises_only P (f a)) -> raises_only P (traverse f l).
Proof.
  intros Hf. induction l as [|a l IH]; simpl; [apply raises_only_Ok|].
  apply raises_only_bind; [apply Hf|]. intros b.
  apply raises_only_bind; [exact IH|]. intros bs. apply raises_only_Ok.
Qed.

Hypothesis P_KeyError : forall key, P (KeyError key).
Hypothesis P_InvalidArgumentError : P InvalidArgumentError.
Hypothesis P_ValueError : P ValueError.
Hypothesis P_ShapeMismatchError : P ShapeMismatchError.

Lemma raises_only_broadcast {A B C : Type} (f : A -> B -> result C)
  (xs : list A) (ys : list B) :
  (forall a b, raises_only P (f a b)) -> raises_only P (broadcast f xs ys).
Proof.
  intros Hf. unfold broadcast.
  destruct (Nat.eqb (length xs) (length ys)).
  - apply raises_only_traverse. intros [a b]. apply Hf.
  - destruct xs as [|x [|x' xs]]; destruct ys as [|y [|y' ys]];
      first [ apply raises_only_traverse; intros ?; apply Hf
            | apply raises_only_Raise; exact P_InvalidArgumentError ].
Qed.

Lemma raises_only_getitem {V : Type} (d : gmap string V) (key : string) :
  raises_only P (getitem d key).
Proof.
  unfold getitem. destruct (d !! key);
    [apply raises_only_Ok|apply raises_only_Raise, P_KeyError].
Qed.

Lemma raises_only_as_float3 (v : value) : raises_only P (as_float3 v).
Proof.
  destruct v; simpl;
    first [apply raises_only_Ok
          |apply raises_only_Raise; exact P_InvalidArgumentError].
Qed.

Lemma raises_only_as_int1 (v : value) : raises_only P (as_int1 v).
Proof.
  destruct v; simpl;
    first [apply raises_only_Ok
          |apply raises_only_Raise; exact P_InvalidArgumentError].
Qed.

Lemma raises_only_broadcast2 {A B C : Type} (f : A -> B -> C)
  (x : list (list A)) (y : list (list B)) :
  raises_only P (broadcast2 f x y).
Proof.
  unfold broadcast2. apply raises_only_broadcast. intros a b.
  apply raises_only_broadcast. intros a' b'. apply raises_only_Ok.
Qed.

Lemma raises_only_broadcast3 {A B C : Type} (f : A -> B -> C)
  (x : list (list (list A))) (y : list (list (list B))) :
  raises_only P (broadcast3 f x y).
Proof.
  unfold broadcast3. apply raises_only_broadcast. intros a b.
  apply raises_only_broadcast. intros a' b'.
  apply raises_only_broadcast. intros a'' b''. apply raises_only_Ok.
Qed.

Ltac raises_only_step :=
  first [ apply raises_only_Ok
        | apply raises_only_getitem
        | apply raises_only_as_float3
        | apply raises_only_as_int1
        | apply raises_only_broadcast2
        | apply raises_only_broadcast3
        | apply raises_only_bind; [|intros ?] ].

Lemma raises_only_calculate_3d_loss (y_gt y_pred : tensor3) :
  raises_only P (calculate_3d_loss y_gt y_pred mae).
Proof.
  unfold calculate_3d_loss, mae.
  destruct (same_shape3 y_gt y_pred);
    [|apply raises_only_Raise; exact P_ShapeMismatchError].
  repeat raises_only_step.
Qed.

Lemma raises_only_calculate_2d_loss (y_gt y_pred : tensor2) :
  raises_only P (calculate_2d_loss y_gt y_pred binary_crossentropy).
Proof.
  unfold calculate_2d_loss, binary_crossentropy, BinaryCrossentropy.
  destruct (same_shape2 y_gt y_pred);
    [|apply raises_only_Raise; exact P_ShapeMismatchError].
  repeat raises_only_step.
Qed.

Lemma raises_only_max_mel_length (config : gmap string pyval)
  (batch : gmap string value) :
  raises_only P (max_mel_length config batch).
Proof.
  unfold max_mel_length. raises_only_step; [raises_only_step|].
  destruct (is_False a); repeat raises_only_step.
Qed.

Lemma raises_only_convert_to_tensor (x : tensor_like) :
  raises_only P (convert_to_tensor x).
Proof.
  destruct x as [t|[b|z|s|]]; simpl;
    first [ apply raises_only_Ok
          | apply raises_only_Raise; exact P_ValueError
          | apply raises_only_Raise; exact P_InvalidArgumentError ].
Qed.

Lemma raises_only_tf_range (limit : Z) : raises_only P (tf_range limit).
Proof.
  unfold tf_range. destruct (limit <? 0)%Z;
    [apply raises_only_Raise; exact P_InvalidArgumentError
    |apply raises_only_Ok].
Qed.

Lemma raises_only_stop_gts (config : gmap string pyval)
  (batch : gmap string value) :
  raises_only P (stop_gts config batch).
Proof.
  unfold stop_gts.
  apply raises_only_bind; [apply raises_only_max_mel_length|intros ?].
  apply raises_only_bind; [apply raises_only_convert_to_tensor|intros ?].
  apply raises_only_bind; [apply raises_only_tf_range|intros ?].
  repeat raises_only_step.
Qed.

Lemma raises_only_loss_att (batch : gmap string value) (a : tensor3) :
  raises_only P (loss_att batch a).
Proof.
  unfold loss_att. repeat raises_only_step.
  apply raises_only_broadcast. intros x y. apply raises_only_Ok.
Qed.

Lemma raises_only_compute_per_example_losses (config : gmap string pyval)
  (batch : gmap string value) (outputs : Outputs) :
  raises_only P (compute_per_example_losses config batch outputs).
Proof.
  destruct outputs as [[[dec post] stop] align].
  unfold compute_per_example_losses.
  repeat first
    [ apply raises_only_calculate_3d_loss
    | apply raises_only_calculate_2d_loss
    | apply raises_only_stop_gts
    | apply raises_only_loss_att
    | apply raises_only_broadcast; intros ? ?; apply raises_only_Ok
    | raises_only_step ].
Qed.

End RaisesOnly.

(** *** Missing keys and mismatched shapes *)

Lemma bind_fails_head {A B : Type} (m : result A) (k : A -> result B) :
  (exists e, m = Raise e) -> exists e, bind m k = Raise e.
Proof. intros [e ->]. exists e. reflexivity. Qed.

Lemma bind_fails_tail {A B : Type} (m : result A) (k : A -> result B) :
  (forall a, exists e, k a = Raise e) -> exists e, bind m k = Raise e.
Proof.
  intros Hk. destruct m as [a|e]; simpl; [apply Hk|].
  exists e. reflexivity.
Qed.

Lemma getitem_missing {V : Type} (d : gmap string V) (key : string) :
  d !! key = None -> getitem d key = Raise (KeyError key).
Proof. intros H. unfold getitem. rewrite H. reflexivity. Qed.

Lemma stop_gts_missing (config : gmap string pyval)
  (batch : gmap string value) :
  batch !! "mel_lengths" = None -> exists e, stop_gts config batch = Raise e.
Proof.
  intros H. unfold stop_gts.
  do 3 (apply bind_fails_tail; intros ?).
  apply bind_fails_head. exists (KeyError "mel_lengths").
  apply getitem_missing. exact H.
Qed.

Lemma loss_att_missing (batch : gmap string value) (a : tensor3) :
  batch !! "g_attentions" = None ->
  loss_att batch a = Raise (KeyError "g_attentions").
Proof.
  intros H. unfold loss_att. rewrite (getitem_missing _ _ H). reflexivity.
Qed.

Lemma compute_per_example_losses_missing (config : gmap string pyval)
  (batch : gmap string value) (outputs : Outputs) (key : string) :
  In key required_keys -> batch !! key = None ->
  exists e, compute_per_example_losses config batch outputs = Raise e.
Proof.
  destruct outputs as [[[dec post] stop] align].
  intros [<-|[<-|[<-|[]]]] H; unfold compute_per_example_losses.
  - apply bind_fails_head. exists (KeyError "mel_gts").
    apply getitem_missing. exact H.
  - do 6 (apply bind_fails_tail; intros ?).
    apply bind_fails_head. apply stop_gts_missing. exact H.
  - do 8 (apply bind_fails_tail; intros ?).
    apply bind_fails_head. exists (KeyError "g_attentions").
    apply loss_att_missing. exact H.
Qed.

Lemma broadcast_stretch_l {A B C : Type} (f : A -> B -> result C) (x : A)
  (ys : list B) :
  broadcast f [x] ys = traverse (f x) ys.
Proof.
  unfold broadcast. destruct ys as [|y [|y' ys]]; reflexivity.
Qed.

Lemma broadcast3_stretch (h : R -> R -> R) (x : R) (g : tensor2) :
  broadcast3 h [[[x]]] [g] = Ok [map (map (h x)) g].
Proof.
  unfold broadcast3. rewrite broadcast_stretch_l. simpl.
  rewrite broadcast_stretch_l.
  rewrite (traverse_ext_in _ (fun row => Ok (map (h x) row))).
  - rewrite traverse_pure. reflexivity.
  - intros row _. rewrite broadcast_stretch_l. apply traverse_pure.
Qed.

Lemma same_shape2_map_l {A : Type} (f : R -> R) (g : tensor2) :
  same_shape2 (map (map f) g) g = true.
Proof.
  unfold same_shape2, same_shape1.
  induction g as [|row g IH]; simpl; [reflexivity|].
  rewrite length_map, Nat.eqb_refl, IH. reflexivity.
Qed.

Lemma zip_with_map_l_self {A B C : Type} (h : B -> A -> C) (f : A -> B)
  (l : list A) :
  zip_with h (map f l) l = map (fun a => h (f a) a) l.
Proof.
  induction l as [|a l IH]; simpl; [reflexivity|]. rewrite IH. reflexivity.
Qed.

Lemma loss_att_broadcasts (batch : gmap string value) (x : R) (g : tensor2) :
  batch !! "g_attentions" = Some (VFloat3 [g]) ->
  loss_att batch [[[x]]] =
  Ok [att_example (map (map (fun _ => x)) g) g].
Proof.
  intros Hg.
  assert (Hs : same_shape3 [map (map (fun _ : R => x)) g] [g] = true).
  { unfold same_shape3. simpl. rewrite (same_shape2_map_l (A := R)).
    reflexivity. }
  transitivity (loss_att batch [map (map (fun _ => x)) g]).
  - unfold loss_att, getitem. rewrite Hg. simpl.
    rewrite broadcast3_stretch, (broadcast3_same_shape _ _ _ Hs).
    replace (zip_with (zip_with (zip_with Rmult))
               [map (map (fun _ : R => x)) g] [g])
      with [map (map (Rmult x)) g]; [reflexivity|].
    simpl. f_equal. rewrite zip_with_map_l_self.
    apply map_ext. intros row. rewrite zip_with_map_l_self. reflexivity.
  - rewrite (loss_att_closed _ _ _ Hg Hs). reflexivity.
Qed.

(** C9, refuted as stated: a batch without "mel_gts" makes the computation
    end with KeyError, which is not ConfigurationError; and an alignment of
    shape [1, 1, 1] met by a prior of shape [1, 2, 2] raises nothing. *)
Lemma missing_key_raises_KeyError :
  compute_per_example_losses config_dynamic ∅ outputs_2 =
  Raise (KeyError "mel_gts")
  /\ compute_per_example_losses config_dynamic ∅ outputs_2 <>
     Raise ConfigurationError
  /\ exists l, loss_att batch_wide [[[1]]] = Ok l.
Proof.
  split; [reflexivity|]. split; [discriminate|].
  eexists. apply loss_att_broadcasts. reflexivity.
Qed.

(** C9, as amended: with one of the required keys (mel_gts, mel_lengths,
    g_attentions) missing from the batch, [compute_per_example_losses]
    returns nothing: it ends with an exception that is never
    ConfigurationError, and that is KeyError "mel_gts" whenever mel_gts is
    the missing key.  A mel prediction whose shape differs from the ground
    truth's is rejected with ShapeMismatchError by the loss helper, while an
    alignment of shape [1, 1, 1] is silently broadcast over a prior of
    batch size 1. *)
Theorem missing_key_and_shape_errors (config : gmap string pyval)
  (batch : gmap string value) (outputs : Outputs) :
  (batch !! "mel_gts" = None ->
   compute_per_example_losses config batch outputs =
   Raise (KeyError "mel_gts"))
  /\ (forall key : string,
        In key required_keys -> batch !! key = None ->
        fails_otherwise (compute_per_example_losses config batch outputs))
  /\ (forall gt : tensor3,
        batch !! "mel_gts" = Some (VFloat3 gt) ->
        same_shape3 gt (fst (fst (fst outputs))) = false
        \/ same_shape3 gt (snd (fst (fst outputs))) = false ->
        compute_per_example_losses config batch outputs =
        Raise ShapeMismatchError)
  /\ (forall (x : R) (g : tensor2),
        batch !! "g_attentions" = Some (VFloat3 [g]) ->
        loss_att batch [[[x]]] =
        Ok [att_example (map (map (fun _ => x)) g) g]).
Proof.
  destruct outputs as [[[dec post] stop] align]. cbn [fst snd].
  split; [|split; [|split]].
  - intros H. unfold compute_per_example_losses.
    rewrite (getitem_missing _ _ H). reflexivity.
  - intros key Hin H.
    destruct (compute_per_example_losses_missing config batch
                (dec, post, stop, align) key Hin H) as [e He].
    exists e. split; [exact He|].
    apply (raises_only_compute_per_example_losses
             (fun e => e <> ConfigurationError)) in He;
      [exact He|discriminate..].
  - intros gt Hgt Hs. unfold compute_per_example_losses, getitem.
    rewrite Hgt. simpl.
    destruct (same_shape3 gt dec) eqn:Hdec.
    + destruct Hs as [Hs|Hs]; [discriminate|].
      rewrite (calculate_3d_loss_mae _ _ Hdec). simpl.
      unfold calculate_3d_loss. rewrite Hs. reflexivity.
    + unfold calculate_3d_loss. rewrite Hdec. reflexivity.
  - intros x g Hg. apply loss_att_broadcasts. exact Hg.
Qed.

Lemma missing_key_and_shape_errors_witness :
  compute_per_example_losses config_dynamic ∅ outputs_2 =
  Raise (KeyError "mel_gts")
  /\ fails_otherwise
       (compute_per_example_losses config_dynamic batch_wide outputs_2)
  /\ compute_per_example_losses config_dynamic batch_2
       ([[[1]]], [[[1]]], [[0]], [[[1]]]) =
     Raise ShapeMismatchError
  /\ loss_att batch_wide [[[1]]] =
     Ok [att_example (map (map (fun _ => 1)) [[0; 1]; [1; 0]])
           [[0; 1]; [1; 0]]].
Proof.
  split; [|split; [|split]].
  - apply (proj1 (missing_key_and_shape_errors config_dynamic ∅ outputs_2)).
    reflexivity.
  - apply (proj1 (proj2 (missing_key_and_shape_errors config_dynamic
                           batch_wide outputs_2)) "mel_lengths").
    + right. left. reflexivity.
    + reflexivity.
  - apply (proj1 (proj2 (proj2 (missing_key_and_shape_errors config_dynamic
                                  batch_2
                                  ([[[1]]], [[[1]]], [[0]], [[[1]]]))))
             mel_gts_2).
    + reflexivity.
    + left. reflexivity.
  - apply (proj2 (proj2 (proj2 (missing_key_and_shape_errors config_dynamic
                                  batch_wide outputs_2)))).
    reflexivity.
Defined.

(** *** The diagnostic renderer *)

Import DiagnosticRenderer.

Lemma generate_and_save_plain :
  let r := generate_and_save_intermediate_result string (fun s => s) world_plain
             config_dynamic 0 batch_plain fs_empty in
  snd r = Ok tt
  /\ written (fst r) =
     ["exp/predictions/0steps/utt0.png";
      "exp/predictions/0steps/0_alignment.png"].
Proof. vm_compute. split; reflexivity. Qed.

(** C6, refuted as stated: when the output directory cannot be created, the
    OSError of [os.makedirs] leaves the method and reaches the caller. *)
Lemma makedirs_failure_reaches_caller :
  generate_and_save_intermediate_result string (fun s => s) world_denied
    config_dynamic 0 batch_plain fs_empty =
  (fs_empty, Raise OSError).
Proof. vm_compute. reflexivity. Qed.

(** *** The loop over the examples, figure by figure *)

Lemma tf_reshape_80_reshapable (t : tensor2) :
  reshapable t -> exists r, tf_reshape_80 t = Ok r.
Proof.
  intros H. unfold tf_reshape_80. unfold reshapable in H. rewrite H.
  eexists. reflexivity.
Qed.

Lemma Forall_zip4_reshapable (gts mbs mas als : tensor3) :
  Forall reshapable gts -> Forall reshapable mbs -> Forall reshapable mas ->
  Forall (fun item : tensor2 * tensor2 * tensor2 * tensor2 =>
            reshapable (fst (fst (fst item)))
            /\ reshapable (snd (fst (fst item)))
            /\ reshapable (snd (fst item)))
    (zip4 gts mbs mas als).
Proof.
  intros Hg Hb Ha. unfold zip4.
  apply (Forall_zip_with_both _
           (fun abc : tensor2 * tensor2 * tensor2 =>
              reshapable (fst (fst abc)) /\ reshapable (snd (fst abc))
              /\ reshapable (snd abc))
           (fun _ => True)); [|  |apply Forall_true].
  - intros abc x H _. exact H.
  - apply (Forall_zip_with_both _
             (fun ab : tensor2 * tensor2 =>
                reshapable (fst ab) /\ reshapable (snd ab))
             reshapable); [| |exact Ha].
    + intros ab x [H1 H2] H3. repeat split; assumption.
    + apply (Forall_zip_with_both _ reshapable reshapable);
        [|exact Hg|exact Hb].
      intros x y H1 H2. split; assumption.
Qed.

Section FigureLoop.

Variable U : Type.
Variable format_id : U -> string.
Variable w : World.
Variable steps : nat.
Variable dirname : string.
Variable ids : list U.

Lemma for_each_app {A : Type} (body : A -> io unit) (l k : list A)
  (fs : FileSystem) :
  for_each body (l ++ k) fs =
  io_bind (for_each body l) (fun _ => for_each body k) fs.
Proof.
  revert fs. induction l as [|a l IH]; intros fs; [reflexivity|].
  cbn [app for_each]. unfold io_bind.
  destruct (body a fs) as [fs1 [[]|e]]; [|reflexivity].
  rewrite IH. reflexivity.
Qed.

(** The body of the loop draws and saves two figures. *)
Lemma save_example_figures (j : nat) (u : U)
  (item : tensor2 * tensor2 * tensor2 * tensor2) (fs : FileSystem) :
  reshapable (fst (fst (fst item))) -> reshapable (snd (fst (fst item))) ->
  reshapable (snd (fst item)) ->
  ids !! j = Some u ->
  save_example U format_id w steps dirname ids (j, item) fs =
  for_each (draw_and_save w)
    [os_path_join dirname (format_id u ++ ".png");
     os_path_join dirname (pretty j ++ "_alignment.png")] fs.
Proof.
  destruct item as [[[gt before] after] al]. cbn [fst snd].
  intros Hg Hb Ha Hj.
  destruct (tf_reshape_80_reshapable _ Hg) as [gt' Hgt].
  destruct (tf_reshape_80_reshapable _ Hb) as [before' Hbefore].
  destruct (tf_reshape_80_reshapable _ Ha) as [after' Hafter].
  unfold save_example, for_each, draw_and_save, io_bind, lift, plot,
    plt_savefig, check, io_ret.
  rewrite Hgt, Hbefore, Hafter, Hj.
  destruct (plot_error w (os_path_join dirname (format_id u ++ ".png")));
    [reflexivity|].
  unfold io_bind, lift.
  destruct (savefig_error w (os_path_join dirname (format_id u ++ ".png")));
    [reflexivity|].
  destruct (plot_error w
              (os_path_join dirname (pretty j ++ "_alignment.png")));
    [reflexivity|].
  destruct (savefig_error w
              (os_path_join dirname (pretty j ++ "_alignment.png")));
    reflexivity.
Qed.

(** With an utterance id for every example, the loop draws and saves the
    figures of [figure_names] in turn. *)
Lemma for_each_save_example_figures
  (items : list (tensor2 * tensor2 * tensor2 * tensor2)) (j : nat)
  (fs : FileSystem) :
  Forall (fun item : tensor2 * tensor2 * tensor2 * tensor2 =>
            reshapable (fst (fst (fst item)))
            /\ reshapable (snd (fst (fst item)))
            /\ reshapable (snd (fst item))) items ->
  (j + length items <= length ids)%nat ->
  for_each (save_example U format_id w steps dirname ids)
    (zip_with pair (seq j (length items)) items) fs =
  for_each (draw_and_save w)
    (figure_names format_id dirname ids j (length items)) fs.
Proof.
  intros Hok. revert j fs.
  induction Hok as [|item items [Hg [Hb Ha]] _ IH]; intros j fs Hlen;
    [reflexivity|].
  cbn [length] in Hlen.
  destruct (lookup_lt_is_Some_2 ids j ltac:(lia)) as [u Hj].
  cbn [length seq zip_with for_each].
  unfold figure_names. cbn [seq flat_map]. rewrite Hj.
  fold (figure_names format_id dirname ids (S j) (length items)).
  rewrite for_each_app. unfold io_bind at 1 2.
  rewrite (save_example_figures j u item fs Hg Hb Ha Hj).
  destruct (for_each (draw_and_save w) _ fs) as [fs1 [[]|e]];
    [|reflexivity].
  apply IH. lia.
Qed.

(** The loop stops at the first figure that cannot be drawn or saved, with
    the exception of that figure and the figures before it written. *)
Lemma for_each_draw_and_save_fails (done rest : list string) (p : string)
  (e : exn) (fs : FileSystem) :
  Forall (figure_ok w) done -> figure_fails w p e ->
  let r := for_each (draw_and_save w) (done ++ p :: rest) fs in
  snd r = Raise e /\ written (fst r) = (written fs ++ done)%list.
Proof.
  intros Hdone Hp. revert fs.
  induction Hdone as [|q done [Hq1 Hq2] _ IH]; intros fs; cbv zeta.
  - cbn [app for_each]. unfold io_bind, draw_and_save, io_bind, plot,
      plt_savefig, check, lift, io_ret.
    destruct Hp as [Hp|[Hp Hs]]; rewrite Hp.
    + simpl. rewrite app_nil_r. split; reflexivity.
    + unfold io_bind, check, lift. rewrite Hs. simpl.
      rewrite app_nil_r. split; reflexivity.
  - assert (Hq : draw_and_save w q fs =
                 ({| existing := {[ q ]} ∪ existing fs;
                     written := written fs ++ [q] |}, Ok tt)).
    { unfold draw_and_save, io_bind, plot, plt_savefig, check, lift, io_ret.
      rewrite Hq1. unfold io_bind, check, io_ret. rewrite Hq2.
      reflexivity. }
    assert (Hstep :
      for_each (draw_and_save w) ((q :: done) ++ p :: rest) fs =
      for_each (draw_and_save w) (done ++ p :: rest)
        {| existing := {[ q ]} ∪ existing fs;
           written := written fs ++ [q] |}).
    { cbn [app for_each]. unfold io_bind. rewrite Hq. reflexivity. }
    rewrite Hstep.
    destruct (IH {| existing := {[ q ]} ∪ existing fs;
                    written := written fs ++ [q] |}) as [Hr Hw].
    split; [exact Hr|].
    etransitivity; [exact Hw|].
    cbn [written]. rewrite <- app_assoc. reflexivity.
Qed.

End FigureLoop.

(** C6, as amended: the only handler of the method guards the first-replica
    extraction, whose failure on unsharded tensors is answered by the plain
    conversion.  A failure of [os.makedirs], of the plotting calls or of
    [plt.savefig] is not caught: it reaches the caller, whichever figure of
    whichever example it strikes and whether the directory was there or has
    just been created; the figures saved before it stay written. *)
Theorem only_conversion_failure_is_caught (U : Type)
  (format_id : U -> string) (w : World) (config : gmap string pyval)
  (steps : nat) (batch : Batch U) (fs : FileSystem) :
  (forall (d m g a : tensor3) (u : list U),
     convert U (Tensor d) (Tensor m) (Tensor g) (Tensor a) (Tensor u) =
     Ok (d, m, g, a, u))
  /\ (forall (d m a g : obj tensor3) (s : obj tensor2) (u : obj (list U))
        (arrays : tensor3 * tensor3 * tensor3 * tensor3 * list U)
        (outdir : string) (e : exn),
        import_pyplot w = None ->
        one_step_predict w = Ok (d, m, s, a) ->
        mel_gts U batch = Some g -> utt_ids U batch = Some u ->
        convert U d m g a u = Ok arrays ->
        config !! "outdir" = Some (PyStr outdir) ->
        let dirname :=
          os_path_join outdir ("predictions/" ++ pretty steps ++ "steps") in
        dirname ∉ existing fs ->
        makedirs_error w dirname = Some e ->
        generate_and_save_intermediate_result U format_id w config steps
          batch fs =
        (fs, Raise e))
  /\ (forall (d m a g : obj tensor3) (s : obj tensor2) (u : obj (list U))
        (mbs mas gts als : tensor3) (ids : list U) (outdir : string)
        (done rest : list string) (p : string) (e : exn),
        import_pyplot w = None ->
        one_step_predict w = Ok (d, m, s, a) ->
        mel_gts U batch = Some g -> utt_ids U batch = Some u ->
        convert U d m g a u = Ok (mbs, mas, gts, als, ids) ->
        config !! "outdir" = Some (PyStr outdir) ->
        Forall reshapable gts -> Forall reshapable mbs ->
        Forall reshapable mas ->
        let dirname :=
          os_path_join outdir ("predictions/" ++ pretty steps ++ "steps") in
        let n := Nat.min (Nat.min (Nat.min (length gts) (length mbs))
                            (length mas)) (length als) in
        (n <= length ids)%nat ->
        dirname ∈ existing fs \/ makedirs_error w dirname = None ->
        figure_names format_id dirname ids 0 n = (done ++ p :: rest)%list ->
        Forall (figure_ok w) done ->
        figure_fails w p e ->
        let r := generate_and_save_intermediate_result U format_id w config
                   steps batch fs in
        snd r = Raise e /\ written (fst r) = (written fs ++ done)%list).
Proof.
  split; [reflexivity|]. split.
  - intros d m a g s u [[[[mb ma] gts] als] ids] outdir e
      Himp Hpred Hg Hu Hconv Hout dirname Hdir Herr.
    unfold generate_and_save_intermediate_result, io_bind, check, lift,
      io_ret, os_path_exists, os_makedirs, getitem.
    rewrite Himp, Hpred, Hg, Hu, Hconv, Hout.
    fold dirname. rewrite (bool_decide_eq_false_2 _ Hdir).
    unfold io_bind, check, lift. rewrite Herr. reflexivity.
  - intros d m a g s u mbs mas gts als ids outdir done rest p e
      Himp Hpred Hg Hu Hconv Hout Hgts Hmbs Hmas dirname n Hids Hdir Hfigs
      Hdone Hfail r.
    pose proof (Forall_zip4_reshapable gts mbs mas als Hgts Hmbs Hmas) as Hok.
    assert (Hn : length (zip4 gts mbs mas als) = n).
    { unfold zip4, n. rewrite !length_zip_with. reflexivity. }
    assert (Hrun : exists fs1,
      written fs1 = written fs
      /\ r = for_each (save_example U format_id w steps dirname ids)
               (zip_with pair (seq 0 n) (zip4 gts mbs mas als)) fs1).
    { unfold r, generate_and_save_intermediate_result, io_bind, check, lift,
        io_ret, os_path_exists, os_makedirs, getitem, enumerate.
      rewrite Himp, Hpred, Hg, Hu, Hconv, Hout. fold dirname. rewrite Hn.
      destruct (bool_decide (dirname ∈ existing fs)) eqn:Hex.
      - exists fs. split; reflexivity.
      - destruct Hdir as [Hdir|Hmk];
          [rewrite (bool_decide_eq_true_2 _ Hdir) in Hex; discriminate|].
        unfold io_bind, check, lift, io_ret. rewrite Hmk.
        eexists. split; [|reflexivity]. reflexivity. }
    destruct Hrun as (fs1 & Hw1 & Hr).
    rewrite <- Hn in Hr at 1.
    rewrite (for_each_save_example_figures U format_id w steps dirname ids
               _ 0 fs1 Hok) in Hr by (rewrite Hn; exact Hids).
    rewrite Hn, Hfigs in Hr.
    destruct (for_each_draw_and_save_fails w done rest p e fs1 Hdone Hfail)
      as [Hres Hwr].
    rewrite Hr. split; [exact Hres|]. rewrite Hwr, Hw1. reflexivity.
Qed.

Lemma only_conversion_failure_is_caught_witness :
  convert string (Tensor mel_80) (Tensor mel_80) (Tensor mel_80)
    (Tensor [[[1]]]) (Tensor ["utt0"]) =
  Ok (mel_80, mel_80, mel_80, [[[1]]], ["utt0"])
  /\ generate_and_save_intermediate_result string (fun s => s) world_denied
       config_dynamic 0 batch_plain fs_empty =
     (fs_empty, Raise OSError)
  /\ (let r := generate_and_save_intermediate_result string (fun s => s)
                 world_alignment_fails config_dynamic 0 batch_plain
                 fs_empty in
      snd r = Raise OSError
      /\ written (fst r) =
         (written fs_empty ++ ["exp/predictions/0steps/utt0.png"])%list).
Proof.
  split; [|split].
  - apply (proj1 (only_conversion_failure_is_caught string (fun s => s)
                    world_plain config_dynamic 0 batch_plain fs_empty)).
  - apply (proj1 (proj2 (only_conversion_failure_is_caught string
                           (fun s => s) world_denied config_dynamic 0
                           batch_plain fs_empty))
             (Tensor mel_80) (Tensor mel_80) (Tensor [[[1]]])
             (Tensor mel_80) (Tensor [[0]]) (Tensor ["utt0"])
             (mel_80, mel_80, mel_80, [[[1]]], ["utt0"]) "exp" OSError);
      try reflexivity.
    exact (not_elem_of_empty (C := gset string) _).
  - apply (proj2 (proj2 (only_conversion_failure_is_caught string
                           (fun s => s) world_alignment_fails config_dynamic
                           0 batch_plain fs_empty))
             (Tensor mel_80) (Tensor mel_80) (Tensor [[[1]]])
             (Tensor mel_80) (Tensor [[0]]) (Tensor ["utt0"])
             mel_80 mel_80 mel_80 [[[1]]] ["utt0"] "exp"
             ["exp/predictions/0steps/utt0.png"] []
             "exp/predictions/0steps/0_alignment.png" OSError);
      try reflexivity;
      try (right; reflexivity);
      try (right; split; reflexivity);
      repeat constructor.
Defined.

(** *** Worked examples *)

Example mel_l1_example : mel_l1 [[1; 2]; [0; 1]] [[1; 2]; [0; 3]] = 1 / 2.
Proof.
  unfold mel_l1, mean. cbn [zip_with Rsum fold_right length INR].
  replace (1 - 1) with 0 by lra. replace (2 - 2) with 0 by lra.
  replace (0 - 0) with 0 by lra. replace (3 - 1) with 2 by lra.
  rewrite Rabs_R0, (Rabs_right 2) by lra. lra.
Qed.

Example guided_attention_loss_spec_example :
  guided_attention_loss_spec [[1; 1]; [0; 1]] [[0; 1 / 2]; [-1; -1]] =
  Fin (1 / 4).
Proof.
  unfold guided_attention_loss_spec.
  cbn [concat app combine List.filter snd].
  rewrite (is_valid_other 0), (is_valid_other (1 / 2)), is_valid_sentinel
    by lra.
  cbn [map Rsum fold_right fst snd length INR]. unfold tf_div.
  destruct (Req_dec_T (1 + 1) 0) as [H|_]; [lra|].
  f_equal. rewrite Rmult_0_r, Rabs_R0, (Rabs_right (1 * (1 / 2))) by lra.
  lra.
Qed.

Example stop_loss_example_zero_logit :
  stop_loss_example [0] [0] = Fin (ln 2).
Proof.
  unfold stop_loss_example. rewrite reduce_mean_Fin by discriminate.
  unfold mean. cbn [zip_with Rsum fold_right length INR].
  unfold sigmoid_cross_entropy_with_logits.
  rewrite Rmax_left, Rabs_R0, Ropp_0, exp_0 by lra.
  f_equal. replace (1 + 1) with 2 by lra. lra.
Qed.

(** * Further properties of the trainer *)

(** ** What a returned result always looks like *)

Lemma bind_Ok_inv {A B : Type} (m : result A) (k : A -> result B) (b : B) :
  bind m k = Ok b -> exists a, m = Ok a /\ k a = Ok b.
Proof.
  destruct m as [a|e]; simpl; intros H; [|discriminate].
  exists a. split; [reflexivity|exact H].
Qed.

Lemma compute_per_example_losses_dom (config : gmap string pyval)
  (batch : gmap string value) (outputs : Outputs) (per : list tfloat)
  (metrics : gmap string (list tfloat)) :
  compute_per_example_losses config batch outputs = Ok (per, metrics) ->
  dom metrics = list_to_set list_metrics_name.
Proof.
  destruct outputs as [[[dec post] stop] align].
  unfold compute_per_example_losses. intros H.
  repeat (apply bind_Ok_inv in H as [? [_ H]]).
  inversion H; subst. unfold dict_metrics_losses, list_metrics_name.
  rewrite !dom_insert_L, dom_empty_L. simpl. set_solver.
Qed.

(** X1. Whenever [compute_per_example_losses] returns, the keys of the
    metrics dictionary are exactly the names of [list_metrics_name], whatever
    the batch and the model output. *)
Theorem metrics_keys_are_list_metrics_name (config : gmap string pyval)
  (batch : gmap string value) (outputs : Outputs) (per : list tfloat)
  (metrics : gmap string (list tfloat)) :
  compute_per_example_losses config batch outputs = Ok (per, metrics) ->
  dom metrics = list_to_set list_metrics_name.
Proof. apply compute_per_example_losses_dom. Qed.

Lemma metrics_keys_are_list_metrics_name_witness :
  exists (per : list tfloat) (metrics : gmap string (list tfloat)),
    compute_per_example_losses config_dynamic batch_2 outputs_2 =
    Ok (per, metrics)
    /\ dom metrics = list_to_set list_metrics_name.
Proof.
  destruct (compute_per_example_losses_aligned _ _ _ _ _ _ _ _ _ _ aligned_2)
    as [Heq _].
  eexists _, _. split; [exact Heq|].
  exact (metrics_keys_are_list_metrics_name _ _ _ _ _ Heq).
Defined.

(** ** The shape of the stop-token labels *)

Lemma map_const_repeat {A B : Type} (f : A -> B) (c : B) (l : list A) :
  (forall x, In x l -> f x = c) -> map f l = repeat c (length l).
Proof.
  induction l as [|x l IH]; intros H; simpl; [reflexivity|].
  rewrite (H x) by (left; reflexivity).
  rewrite IH; [reflexivity|]. intros y Hy. apply H. right. exact Hy.
Qed.

Lemma stop_row_step (T len : Z) :
  let k := Z.to_nat (Z.min len T) in
  stop_row T len = (repeat 0 k ++ repeat 1 (Z.to_nat T - k))%list.
Proof.
  intros k. unfold stop_row, iota.
  assert (Hk : (k <= Z.to_nat T)%nat) by (unfold k; lia).
  replace (Z.to_nat T) with (k + (Z.to_nat T - k))%nat at 1 by lia.
  rewrite seq_app, !map_app. f_equal.
  - rewrite map_map.
    rewrite (map_const_repeat _ 0), length_seq; [reflexivity|].
    intros t Ht. apply in_seq in Ht.
    destruct (Z.geb_spec (Z.of_nat t) len); [|reflexivity].
    unfold k in Ht. lia.
  - rewrite map_map.
    rewrite (map_const_repeat _ 1), length_seq; [reflexivity|].
    intros t Ht. apply in_seq in Ht.
    destruct (Z.geb_spec (Z.of_nat t) len); [reflexivity|].
    unfold k in Ht, Hk. lia.
Qed.

Lemma stop_gts_rows_are_steps_aux (config : gmap string pyval)
  (batch : gmap string value) (mel_lengths : list Z) (m : int_tensor) :
  batch !! "mel_lengths" = Some (VInt1 mel_lengths) ->
  max_mel_length_tensor config batch = Ok m ->
  (0 <= tf_reduce_max m)%Z ->
  exists gts : tensor2,
    stop_gts config batch = Ok gts
    /\ forall (i : nat) (len : Z),
         mel_lengths !! i = Some len ->
         gts !! i =
         Some (repeat 0 (Z.to_nat (Z.min len (tf_reduce_max m))) ++
               repeat 1 (Z.to_nat (tf_reduce_max m) -
                         Z.to_nat (Z.min len (tf_reduce_max m))))%list.
Proof.
  intros Hl Hm HT. eexists.
  split; [exact (stop_gts_closed _ _ _ _ Hl Hm HT)|].
  intros i len Hi. rewrite lookup_map, Hi. simpl. f_equal.
  apply stop_row_step.
Qed.

(** X2. For a time extent T that is not negative, each row of the
    stop-token ground truth is a step: zeros on the first
    min(mel_lengths[i], T) frames (none when the length is negative) and
    ones on all the frames after them. *)
Theorem stop_gts_rows_are_steps (config : gmap string pyval)
  (batch : gmap string value) (mel_lengths : list Z) (m : int_tensor) :
  batch !! "mel_lengths" = Some (VInt1 mel_lengths) ->
  max_mel_length_tensor config batch = Ok m ->
  (0 <= tf_reduce_max m)%Z ->
  exists gts : tensor2,
    stop_gts config batch = Ok gts
    /\ forall (i : nat) (len : Z),
         mel_lengths !! i = Some len ->
         let T := tf_reduce_max m in
         let k := Z.to_nat (Z.min len T) in
         gts !! i = Some (repeat 0 k ++ repeat 1 (Z.to_nat T - k))%list.
Proof.
  intros Hl Hm HT.
  destruct (stop_gts_rows_are_steps_aux config batch mel_lengths m Hl Hm HT)
    as [gts [Hgts Hrows]].
  exists gts. split; [exact Hgts|]. intros i len Hi T k.
  exact (Hrows i len Hi).
Qed.

Lemma stop_gts_rows_are_steps_witness :
  exists gts : tensor2,
    stop_gts config_dynamic batch_3_5 = Ok gts
    /\ forall (i : nat) (len : Z),
         [3%Z; 5%Z] !! i = Some len ->
         let T := tf_reduce_max (Scalar 5) in
         let k := Z.to_nat (Z.min len T) in
         gts !! i = Some (repeat 0 k ++ repeat 1 (Z.to_nat T - k))%list.
Proof.
  apply (stop_gts_rows_are_steps config_dynamic batch_3_5 [3%Z; 5%Z]
           (Scalar 5)); [reflexivity|reflexivity|simpl; lia].
Defined.

Lemma last_app_repeat_1 (k n : nat) :
  (0 < n)%nat -> List.last (repeat 0 k ++ repeat 1 n)%list 0 = 1.
Proof.
  intros Hn. destruct n as [|n]; [lia|].
  replace (S n) with (n + 1)%nat by lia.
  rewrite repeat_app, app_assoc. simpl. apply last_last.
Qed.

(** X3. With config["use_fixed_shapes"] False and a batch where some
    length is not negative, the longest examples of the batch get a row of
    zeros only (they are never told to stop), and every shorter example of
    non-negative length gets a row that ends with 1. *)
Theorem longest_example_has_no_stop_label (config : gmap string pyval)
  (batch : gmap string value) (mel_lengths : list Z) :
  batch !! "mel_lengths" = Some (VInt1 mel_lengths) ->
  config !! "use_fixed_shapes" = Some (PyBool false) ->
  Forall in_int32 mel_lengths ->
  Exists (fun len => (0 <= len)%Z) mel_lengths ->
  exists (gts : tensor2) (T : Z),
    stop_gts config batch = Ok gts
    /\ is_max T mel_lengths
    /\ forall (i : nat) (len : Z),
         mel_lengths !! i = Some len ->
         exists row : tensor1,
           gts !! i = Some row
           /\ (len = T -> row = repeat 0 (Z.to_nat T))
           /\ ((0 <= len < T)%Z -> List.last row 0 = 1).
Proof.
  intros Hl Hu Hr Hex.
  pose proof (max_mel_length_tensor_dynamic _ _ _ Hu Hl) as Hm.
  pose proof (reduce_max_nonneg _ Hex) as HT.
  assert (Hne : mel_lengths <> []).
  { intros ->. inversion Hex. }
  destruct (stop_gts_rows_are_steps_aux config batch mel_lengths _ Hl Hm HT)
    as [gts [Hgts Hrows]].
  exists gts, (tf_reduce_max (Vector mel_lengths)).
  split; [exact Hgts|]. split.
  - exact (reduce_max_is_max _ Hne Hr).
  - intros i len Hi. eexists. split; [exact (Hrows i len Hi)|].
    cbn [tf_reduce_max]. split.
    + intros ->. rewrite Z.min_id, Nat.sub_diag, app_nil_r. reflexivity.
    + intros Hlt. apply last_app_repeat_1. lia.
Qed.

Lemma longest_example_has_no_stop_label_witness :
  exists (gts : tensor2) (T : Z),
    stop_gts config_dynamic batch_2 = Ok gts
    /\ is_max T mel_lengths_2
    /\ forall (i : nat) (len : Z),
         mel_lengths_2 !! i = Some len ->
         exists row : tensor1,
           gts !! i = Some row
           /\ (len = T -> row = repeat 0 (Z.to_nat T))
           /\ ((0 <= len < T)%Z -> List.last row 0 = 1).
Proof.
  apply (longest_example_has_no_stop_label config_dynamic batch_2
           mel_lengths_2); try reflexivity.
  - repeat constructor; unfold int32_min; lia.
  - left. lia.
Defined.

Lemma is_False_other (v : pyval) : v <> PyBool false -> is_False v = false.
Proof.
  intros Hv. destruct v as [[|]| | |]; try reflexivity. contradiction.
Qed.

(** X4. The test on config["use_fixed_shapes"] is an identity test against
    False: any other value, True but also 0, None or a string, selects the
    fixed time extent config["max_mel_length"], and the entries of
    mel_lengths then have no influence on the width of the ground truth. *)
Theorem only_False_selects_dynamic_shapes (config : gmap string pyval)
  (batch : gmap string value) (mel_lengths : list Z) (v : pyval) (z : Z) :
  batch !! "mel_lengths" = Some (VInt1 mel_lengths) ->
  config !! "use_fixed_shapes" = Some v -> v <> PyBool false ->
  config !! "max_mel_length" = Some (PyInt z) -> in_int32 z ->
  (0 <= z)%Z ->
  exists gts : tensor2,
    stop_gts config batch = Ok gts
    /\ length gts = length mel_lengths
    /\ Forall (fun row : list R => length row = Z.to_nat z) gts.
Proof.
  intros Hl Hu Hv Hz Hr Hz0.
  pose proof (max_mel_length_tensor_fixed _ batch _ _ Hu
                (is_False_other _ Hv) Hz) as Hm.
  assert (HT : tf_reduce_max (Vector [z]) = z).
  { simpl. unfold int32_min. lia. }
  assert (HT0 : (0 <= tf_reduce_max (Vector [z]))%Z)
    by (rewrite HT; exact Hz0).
  eexists. split; [exact (stop_gts_closed _ _ _ _ Hl Hm HT0)|].
  split; [apply length_map|].
  rewrite HT. apply Forall_length_stop_rows.
Qed.

Lemma only_False_selects_dynamic_shapes_witness :
  exists gts : tensor2,
    stop_gts config_zero batch_3_5 = Ok gts
    /\ length gts = length [3%Z; 5%Z]
    /\ Forall (fun row : list R => length row = Z.to_nat 3) gts.
Proof.
  apply (only_False_selects_dynamic_shapes config_zero batch_3_5
           [3%Z; 5%Z] (PyInt 0) 3%Z); try reflexivity.
  - discriminate.
  - unfold in_int32, int32_min. lia.
  - lia.
Defined.

Lemma reduce_max_negative (l : list Z) :
  Forall (fun z => (z < 0)%Z) l -> (fold_right Z.max int32_min l < 0)%Z.
Proof.
  induction 1 as [|z l Hz _ IH]; simpl; [unfold int32_min; lia|lia].
Qed.

(** X5. The construction of the stop-token ground truth fails in the order
    the source evaluates it.  A configuration without "use_fixed_shapes"
    raises KeyError for it.  In the fixed branch a missing "max_mel_length"
    raises KeyError; one that is None raises ValueError and one that is a
    string or a bool InvalidArgumentError, when [tf.reduce_max] is handed
    the list.  A negative time extent, configured (as an int32) or the
    greatest of lengths that are all negative (or of no length at all), is
    rejected by [tf.range] with InvalidArgumentError.  Only then is a batch
    without "mel_lengths" met with KeyError for it. *)
Theorem stop_gts_lookup_errors (config : gmap string pyval)
  (batch : gmap string value) :
  (config !! "use_fixed_shapes" = None ->
   stop_gts config batch = Raise (KeyError "use_fixed_shapes"))
  /\ (forall v : pyval,
        config !! "use_fixed_shapes" = Some v -> v <> PyBool false ->
        config !! "max_mel_length" = None ->
        stop_gts config batch = Raise (KeyError "max_mel_length"))
  /\ (forall v x : pyval,
        config !! "use_fixed_shapes" = Some v -> v <> PyBool false ->
        config !! "max_mel_length" = Some x ->
        (x = PyNone -> stop_gts config batch = Raise ValueError)
        /\ ((exists s, x = PyStr s) \/ (exists b, x = PyBool b) ->
            stop_gts config batch = Raise InvalidArgumentError))
  /\ (forall (v : pyval) (z : Z),
        config !! "use_fixed_shapes" = Some v -> v <> PyBool false ->
        config !! "max_mel_length" = Some (PyInt z) -> in_int32 z ->
        (z < 0)%Z ->
        stop_gts config batch = Raise InvalidArgumentError)
  /\ (forall mel_lengths : list Z,
        config !! "use_fixed_shapes" = Some (PyBool false) ->
        batch !! "mel_lengths" = Some (VInt1 mel_lengths) ->
        Forall (fun len => (len < 0)%Z) mel_lengths ->
        stop_gts config batch = Raise InvalidArgumentError)
  /\ (forall v : pyval,
        config !! "use_fixed_shapes" = Some v ->
        v = PyBool false
        \/ (exists z, config !! "max_mel_length" = Some (PyInt z)
                      /\ in_int32 z /\ (0 <= z)%Z) ->
        batch !! "mel_lengths" = None ->
        stop_gts config batch = Raise (KeyError "mel_lengths")).
Proof.
  split; [|split; [|split; [|split; [|split]]]].
  - unfold stop_gts, max_mel_length, getitem. intros ->. reflexivity.
  - unfold stop_gts, max_mel_length, getitem.
    intros v -> Hv ->. simpl. rewrite (is_False_other v Hv). reflexivity.
  - unfold stop_gts, max_mel_length, getitem.
    intros v x -> Hv ->. simpl. rewrite (is_False_other v Hv). split.
    + intros ->. reflexivity.
    + intros [[s ->]|[b ->]]; reflexivity.
  - intros v z Hu Hv Hz _ Hneg.
    apply (stop_gts_negative config batch (Vector [z])).
    + exact (max_mel_length_tensor_fixed _ batch _ _ Hu
               (is_False_other _ Hv) Hz).
    + simpl. unfold int32_min. lia.
  - intros mel_lengths Hu Hl Hneg.
    apply (stop_gts_negative config batch
             (Scalar (tf_reduce_max (Vector mel_lengths)))).
    + exact (max_mel_length_tensor_dynamic _ _ _ Hu Hl).
    + simpl. apply reduce_max_negative. exact Hneg.
  - unfold stop_gts, max_mel_length, getitem.
    intros v -> Hcase Hl. simpl.
    destruct (is_False v) eqn:Hv.
    + rewrite Hl. reflexivity.
    + destruct Hcase as [->|[z [-> [_ Hz]]]]; [discriminate|].
      simpl. rewrite tf_range_nonneg by (unfold int32_min; lia).
      simpl. rewrite Hl. reflexivity.
Qed.

Lemma stop_gts_lookup_errors_witness :
  stop_gts ∅ batch_2 = Raise (KeyError "use_fixed_shapes")
  /\ stop_gts (<["use_fixed_shapes" := PyBool true]> ∅) batch_2 =
     Raise (KeyError "max_mel_length")
  /\ stop_gts (<["use_fixed_shapes" := PyBool true]>
                 (<["max_mel_length" := PyNone]> ∅)) batch_2 =
     Raise ValueError
  /\ stop_gts (<["use_fixed_shapes" := PyBool true]>
                 (<["max_mel_length" := PyStr "long"]> ∅)) batch_2 =
     Raise InvalidArgumentError
  /\ stop_gts (<["use_fixed_shapes" := PyBool true]>
                 (<["max_mel_length" := PyInt (-3)]> ∅)) batch_2 =
     Raise InvalidArgumentError
  /\ stop_gts config_dynamic (<["mel_lengths" := VInt1 []]> ∅) =
     Raise InvalidArgumentError
  /\ stop_gts config_fixed ∅ = Raise (KeyError "mel_lengths").
Proof.
  split; [|split; [|split; [|split; [|split; [|split]]]]].
  - apply (proj1 (stop_gts_lookup_errors ∅ batch_2)). reflexivity.
  - apply (proj1 (proj2 (stop_gts_lookup_errors
                           (<["use_fixed_shapes" := PyBool true]> ∅)
                           batch_2)) (PyBool true));
      [reflexivity|discriminate|reflexivity].
  - refine (proj1 (proj1 (proj2 (proj2 (stop_gts_lookup_errors
                                  (<["use_fixed_shapes" := PyBool true]>
                                     (<["max_mel_length" := PyNone]> ∅))
                                  batch_2)))
             (PyBool true) PyNone _ _ _) _);
      [reflexivity|discriminate|reflexivity|reflexivity].
  - refine (proj2 (proj1 (proj2 (proj2 (stop_gts_lookup_errors
                                  (<["use_fixed_shapes" := PyBool true]>
                                     (<["max_mel_length" := PyStr "long"]> ∅))
                                  batch_2)))
             (PyBool true) (PyStr "long") _ _ _) _);
      [reflexivity|discriminate|reflexivity|].
    left. exists "long". reflexivity.
  - apply (proj1 (proj2 (proj2 (proj2 (stop_gts_lookup_errors
                                  (<["use_fixed_shapes" := PyBool true]>
                                     (<["max_mel_length" := PyInt (-3)]> ∅))
                                  batch_2))))
             (PyBool true) (-3)%Z);
      [reflexivity|discriminate|reflexivity|unfold in_int32, int32_min; lia
      |lia].
  - apply (proj1 (proj2 (proj2 (proj2 (proj2 (stop_gts_lookup_errors
                                  config_dynamic
                                  (<["mel_lengths" := VInt1 []]> ∅))))))
             []); [reflexivity|reflexivity|constructor].
  - apply (proj2 (proj2 (proj2 (proj2 (proj2 (stop_gts_lookup_errors
                                         config_fixed ∅)))))
             (PyBool true)); [reflexivity| |reflexivity].
    right. exists 5%Z.
    split; [reflexivity|unfold in_int32, int32_min; lia].
Defined.

(** ** More on the guided-attention loss *)












Lemma tf_add_NaN_r (x : tfloat) : tf_add x NaN = NaN.
Proof. destruct x; reflexivity. Qed.

(** X9. Nothing traps a NaN term: for an example whose prior is -1.0
    everywhere, the element of per_example_losses is NaN as well, whatever
    the other three terms are. *)
Theorem all_masked_example_poisons_total (config : gmap string pyval)
  (batch : gmap string value) (outputs : Outputs)
  (mel_gts : tensor3) (mel_lengths : list Z) (g_attentions : tensor3)
  (m : int_tensor) :
  aligned config batch outputs mel_gts mel_lengths g_attentions m ->
  exists per metrics,
    compute_per_example_losses config batch outputs = Ok (per, metrics)
    /\ forall (i : nat) (g : tensor2),
         g_attentions !! i = Some g -> valid_positions g = 0%nat ->
         per !! i = Some NaN.
Proof.
  destruct outputs as [[[dec post] stop] align]. intros H.
  destruct (compute_per_example_losses_aligned _ _ _ _ _ _ _ _ _ _ H)
    as (Heq & Lst & Lmb & Lma & Lla).
  eexists _, _. split; [exact Heq|].
  destruct H as [_ _ _ _ _ _ _ _ _ Hal _ Hba]. cbn [fst snd] in *.
  intros i g Hg Hv.
  destruct (lookup_same_length align _ _ _ (all2_length _ _ _ Hal) Hg)
    as [a Ha].
  pose proof (all2_lookup _ _ _ _ _ _ Hal Ha Hg) as Hshape.
  pose proof (lookup_lt_Some _ _ _ Hg) as Hi.
  match goal with
  | |- zip_with tf_add ?s _ !! _ = _ =>
      destruct (lookup_lt_is_Some_2 s i) as [x Hx];
        [rewrite length_zip_with, Lma, length_zip_with, Lst, Lmb; lia|]
  end.
  rewrite lookup_zip_with, Hx, (lookup_zip_with_Some_2 _ _ _ _ _ _ Ha Hg).
  simpl. rewrite att_example_spec by exact Hshape.
  rewrite (guided_attention_loss_spec_no_valid _ _ Hshape Hv).
  rewrite tf_add_NaN_r. reflexivity.
Qed.

Lemma all_masked_example_poisons_total_witness :
  exists per metrics,
    compute_per_example_losses config_dynamic batch_masked outputs_masked =
    Ok (per, metrics)
    /\ forall (i : nat) (g : tensor2),
         [[[-1; -1]]] !! i = Some g -> valid_positions g = 0%nat ->
         per !! i = Some NaN.
Proof.
  exact (all_masked_example_poisons_total _ _ _ _ _ _ _ aligned_masked).
Defined.

(** ** More on the diagnostic renderer *)

Lemma concat_rows_of_80 (fuel : nat) (l : list R) :
  (length l <= fuel)%nat -> concat (rows_of_80 fuel l) = l.
Proof.
  revert l. induction fuel as [|fuel IH]; intros l Hl.
  - destruct l; [reflexivity|simpl in Hl; lia].
  - destruct l as [|x l]; [reflexivity|].
    cbn [rows_of_80 concat]. rewrite IH.
    + apply firstn_skipn.
    + rewrite length_skipn. simpl in *. lia.
Qed.

Lemma rows_of_80_lengths (fuel : nat) (l : list R) (q : nat) :
  length l = (80 * q)%nat -> (length l <= fuel)%nat ->
  Forall (fun row : list R => length row = 80%nat) (rows_of_80 fuel l)
  /\ length (rows_of_80 fuel l) = q.
Proof.
  revert l q. induction fuel as [|fuel IH]; intros l q Hq Hl.
  - destruct l; [|simpl in Hl; lia].
    simpl in Hq. split; [constructor|simpl; lia].
  - destruct l as [|x l].
    + simpl in Hq. split; [constructor|simpl; lia].
    + destruct q as [|q]; [simpl in Hq; lia|].
      cbn [rows_of_80].
      destruct (IH (skipn 80 (x :: l)) q) as [Hrows Hlen].
      * rewrite length_skipn. lia.
      * rewrite length_skipn. simpl in *. lia.
      * split; [|cbn [length]; rewrite Hlen; reflexivity].
        constructor; [|exact Hrows].
        rewrite length_firstn. lia.
Qed.

(** X10. Flattening a mel example into rows of 80 values succeeds exactly
    when the number of values is a multiple of 80, and then keeps the values
    in order, in rows of exactly 80; otherwise it raises
    InvalidArgumentError. *)
Theorem tf_reshape_80_keeps_values (t : tensor2) :
  (length (concat t) mod 80 = 0%nat ->
   exists r : tensor2,
     tf_reshape_80 t = Ok r
     /\ concat r = concat t
     /\ Forall (fun row : list R => length row = 80%nat) r
     /\ (80 * length r = length (concat t))%nat)
  /\ (length (concat t) mod 80 <> 0%nat ->
      tf_reshape_80 t = Raise InvalidArgumentError).
Proof.
  unfold tf_reshape_80. split; intros H.
  - rewrite H. simpl. eexists. split; [reflexivity|].
    apply Nat.Div0.mod_divides in H as [q Hq].
    destruct (rows_of_80_lengths (length (concat t)) (concat t) q Hq
                (Nat.le_refl _)) as [Hrows Hlen].
    split; [apply concat_rows_of_80; lia|].
    split; [exact Hrows|]. rewrite Hlen. lia.
  - apply Nat.eqb_neq in H. rewrite H. reflexivity.
Qed.

Lemma tf_reshape_80_keeps_values_witness :
  (exists r : tensor2,
     tf_reshape_80 [repeat 0 40; repeat 1 40] = Ok r
     /\ concat r = concat [repeat 0 40; repeat 1 40]
     /\ Forall (fun row : list R => length row = 80%nat) r
     /\ (80 * length r = length (concat [repeat 0 40; repeat 1 40]))%nat)
  /\ tf_reshape_80 [[0; 1; 2]] = Raise InvalidArgumentError.
Proof.
  split.
  - apply (proj1 (tf_reshape_80_keeps_values [repeat 0 40; repeat 1 40])).
    reflexivity.
  - apply (proj2 (tf_reshape_80_keeps_values [[0; 1; 2]])).
    discriminate.
Defined.

Lemma numpy_Ok_inv {A : Type} (x : obj A) (v : A) :
  numpy x = Ok v -> x = Tensor v.
Proof. destruct x; simpl; intros H; inversion H; reflexivity. Qed.

Lemma numpy_raises {A : Type} (x : obj A) (e : exn) :
  numpy x = Raise e -> e = AttributeError.
Proof. destruct x; simpl; intros H; inversion H; reflexivity. Qed.

Lemma convert_plain_Ok_inv (U : Type) (d m g a : obj tensor3)
  (u : obj (list U)) (r : tensor3 * tensor3 * tensor3 * tensor3 * list U) :
  convert_plain U d m g a u = Ok r ->
  let '(r1, r2, r3, r4, r5) := r in
  d = Tensor r1 /\ m = Tensor r2 /\ g = Tensor r3 /\ a = Tensor r4
  /\ u = Tensor r5.
Proof.
  unfold convert_plain. intros H.
  apply bind_Ok_inv in H as [v1 [H1 H]].
  apply bind_Ok_inv in H as [v2 [H2 H]].
  apply bind_Ok_inv in H as [v3 [H3 H]].
  apply bind_Ok_inv in H as [v4 [H4 H]].
  apply bind_Ok_inv in H as [v5 [H5 H]].
  inversion H; subst.
  repeat split; apply numpy_Ok_inv; assumption.
Qed.

Lemma convert_plain_raises (U : Type) (d m g a : obj tensor3)
  (u : obj (list U)) (e : exn) :
  convert_plain U d m g a u = Raise e -> e = AttributeError.
Proof.
  unfold convert_plain. intros H.
  repeat match type of H with
         | bind ?x _ = Raise _ =>
             let E := fresh "E" in
             destruct x eqn:E; simpl in H;
             [|inversion H; subst; eapply numpy_raises; eassumption]
         end.
  discriminate.
Qed.

(** X11. The conversion block returns in two cases only: every one of the
    five objects is a sharded collection with at least one replica, and the
    arrays are those of the first replica; or every one of them is a plain
    tensor, and the arrays are theirs.  In every other case, a prediction
    sharded only in part or a collection without replica, it ends with
    AttributeError. *)
Theorem convert_outcomes (U : Type) (d m g a : obj tensor3)
  (u : obj (list U)) :
  (forall (r1 r2 r3 r4 : tensor3) (r5 : list U),
     convert U d m g a u = Ok (r1, r2, r3, r4, r5) <->
     (exists ds ms gs als us,
        d = PerReplica (r1 :: ds) /\ m = PerReplica (r2 :: ms)
        /\ g = PerReplica (r3 :: gs) /\ a = PerReplica (r4 :: als)
        /\ u = PerReplica (r5 :: us))
     \/ (d = Tensor r1 /\ m = Tensor r2 /\ g = Tensor r3 /\ a = Tensor r4
         /\ u = Tensor r5))
  /\ (forall e : exn, convert U d m g a u = Raise e -> e = AttributeError).
Proof.
  split.
  - intros r1 r2 r3 r4 r5. split.
    + intros H. unfold convert in H.
      destruct d as [[|dv ds]|dv|dv]; cbn [values_0_numpy] in H;
        try (right; exact (convert_plain_Ok_inv U _ _ _ _ _ _ H)).
      destruct m as [[|mv ms]|mv|mv]; cbn [values_0_numpy] in H;
        try discriminate.
      destruct g as [[|gv gs]|gv|gv]; cbn [values_0_numpy] in H;
        try discriminate.
      destruct a as [[|av als]|av|av]; cbn [values_0_numpy] in H;
        try discriminate.
      destruct u as [[|uv us]|uv|uv]; cbn [values_0_numpy] in H;
        try discriminate.
      inversion H; subst. left. eexists _, _, _, _, _.
      repeat split; reflexivity.
    + intros [(ds & ms & gs & als & us & -> & -> & -> & -> & ->)
             |(-> & -> & -> & -> & ->)]; reflexivity.
  - intros e H. unfold convert in H.
    destruct d as [[|dv ds]|dv|dv]; cbn [values_0_numpy] in H;
      try exact (convert_plain_raises U _ _ _ _ _ _ H).
    destruct m as [[|mv ms]|mv|mv]; cbn [values_0_numpy] in H;
      try exact (convert_plain_raises U _ _ _ _ _ _ H).
    destruct g as [[|gv gs]|gv|gv]; cbn [values_0_numpy] in H;
      try exact (convert_plain_raises U _ _ _ _ _ _ H).
    destruct a as [[|av als]|av|av]; cbn [values_0_numpy] in H;
      try exact (convert_plain_raises U _ _ _ _ _ _ H).
    destruct u as [[|uv us]|uv|uv]; cbn [values_0_numpy] in H;
      try exact (convert_plain_raises U _ _ _ _ _ _ H).
    discriminate.
Qed.

Lemma convert_outcomes_witness :
  convert string (PerReplica [mel_80; mel_80]) (PerReplica [mel_80])
    (PerReplica [mel_80]) (PerReplica [[[[1]]]]) (PerReplica [["utt0"]]) =
  Ok (mel_80, mel_80, mel_80, [[[1]]], ["utt0"])
  /\ convert string (PerReplica [mel_80]) (Tensor mel_80)
       (PerReplica [mel_80]) (PerReplica [[[[1]]]]) (PerReplica [["utt0"]]) =
     Raise AttributeError.
Proof.
  split.
  - apply (proj1 (convert_outcomes string (PerReplica [mel_80; mel_80])
                    (PerReplica [mel_80]) (PerReplica [mel_80])
                    (PerReplica [[[[1]]]]) (PerReplica [["utt0"]]))).
    left. exists [mel_80], [], [], [], []. repeat split; reflexivity.
  - destruct (convert string (PerReplica [mel_80]) (Tensor mel_80)
                (PerReplica [mel_80]) (PerReplica [[[[1]]]])
                (PerReplica [["utt0"]])) as [r|e] eqn:E.
    + discriminate E.
    + f_equal.
      exact (proj2 (convert_outcomes string (PerReplica [mel_80])
                      (Tensor mel_80) (PerReplica [mel_80])
                      (PerReplica [[[[1]]]]) (PerReplica [["utt0"]])) e E).
Defined.

(** *** The file system only grows *)

Section Grows.

Variable U : Type.
Variable format_id : U -> string.
Variable w : World.

Lemma grows_refl (fs : FileSystem) : grows fs fs.
Proof.
  split; [reflexivity|]. exists []. rewrite app_nil_r. reflexivity.
Qed.

Lemma grows_trans (fs1 fs2 fs3 : FileSystem) :
  grows fs1 fs2 -> grows fs2 fs3 -> grows fs1 fs3.
Proof.
  intros [H1 [m1 E1]] [H2 [m2 E2]]. split; [set_solver|].
  exists (m1 ++ m2)%list. rewrite E2, E1, app_assoc. reflexivity.
Qed.

Lemma io_grows_ret {A : Type} (a : A) : io_grows (io_ret a).
Proof. intros fs. apply grows_refl. Qed.

Lemma io_grows_lift {A : Type} (r : result A) : io_grows (lift r).
Proof. intros fs. apply grows_refl. Qed.

Lemma io_grows_check (err : option exn) : io_grows (check err).
Proof. destruct err; intros fs; apply grows_refl. Qed.

Lemma io_grows_bind {A B : Type} (m : io A) (k : A -> io B) :
  io_grows m -> (forall a, io_grows (k a)) -> io_grows (io_bind m k).
Proof.
  intros Hm Hk fs. unfold io_bind. specialize (Hm fs).
  destruct (m fs) as [fs' [a|e]]; simpl in *; [|exact Hm].
  eapply grows_trans; [exact Hm|]. apply Hk.
Qed.

Lemma io_grows_for_each {A : Type} (body : A -> io unit) (l : list A) :
  (forall a, io_grows (body a)) -> io_grows (for_each body l).
Proof.
  intros Hb. induction l as [|a l IH]; simpl; [apply io_grows_ret|].
  apply io_grows_bind; [apply Hb|]. intros _. exact IH.
Qed.

Lemma io_grows_os_path_exists (p : string) : io_grows (os_path_exists p).
Proof. intros fs. apply grows_refl. Qed.

Lemma io_grows_os_makedirs (p : string) : io_grows (os_makedirs w p).
Proof.
  unfold os_makedirs. apply io_grows_bind; [apply io_grows_check|].
  intros _ fs. split; simpl; [set_solver|].
  exists []. rewrite app_nil_r. reflexivity.
Qed.

Lemma io_grows_plt_savefig (p : string) : io_grows (plt_savefig w p).
Proof.
  unfold plt_savefig. apply io_grows_bind; [apply io_grows_check|].
  intros _ fs. split; simpl; [set_solver|].
  exists [p]. reflexivity.
Qed.

Lemma io_grows_save_example (steps : nat) (dirname : string)
  (ids : list U) (item : nat * (tensor2 * tensor2 * tensor2 * tensor2)) :
  io_grows (save_example U format_id w steps dirname ids item).
Proof.
  destruct item as [idx [[[gt before] after] al]]. unfold save_example.
  repeat first
    [ apply io_grows_lift
    | apply io_grows_plt_savefig
    | apply io_grows_check
    | apply io_grows_bind; [|intros ?] ].
Qed.

End Grows.

(** X12. Whatever the collaborators do and whether the method returns or
    raises, it never removes anything: every path that existed before still
    exists afterwards, and the figures written before are still the first
    ones written. *)
Theorem renderer_never_removes (U : Type) (format_id : U -> string)
  (w : World) (config : gmap string pyval) (steps : nat) (batch : Batch U)
  (fs : FileSystem) :
  grows fs
    (fst (generate_and_save_intermediate_result U format_id w config steps
            batch fs)).
Proof.
  revert fs. change (io_grows
    (generate_and_save_intermediate_result U format_id w config steps batch)).
  unfold generate_and_save_intermediate_result.
  apply io_grows_bind; [apply io_grows_check|intros _].
  apply io_grows_bind; [apply io_grows_lift|intros [[[d m] s] a]].
  apply io_grows_bind; [apply io_grows_lift|intros g].
  apply io_grows_bind; [apply io_grows_lift|intros u].
  apply io_grows_bind;
    [apply io_grows_lift|intros [[[[mbs mas] gts] als] ids]].
  apply io_grows_bind; [apply io_grows_lift|intros outdir].
  apply io_grows_bind; [apply io_grows_lift|intros outdir'].
  apply io_grows_bind; [apply io_grows_os_path_exists|intros found].
  apply io_grows_bind.
  - destruct found; [apply io_grows_ret|apply io_grows_os_makedirs].
  - intros _. apply io_grows_for_each. intros item.
    apply io_grows_save_example.
Qed.

(** *** What a run without failing collaborator writes *)

Lemma figure_names_beyond {U : Type} (format_id : U -> string)
  (dirname : string) (ids : list U) (j n : nat) :
  (length ids <= j)%nat -> figure_names format_id dirname ids j n = [].
Proof.
  unfold figure_names. revert j. induction n as [|n IH]; intros j Hj;
    [reflexivity|].
  cbn [seq flat_map]. rewrite (lookup_ge_None_2 ids j Hj).
  rewrite IH by lia. reflexivity.
Qed.

Lemma length_figure_names {U : Type} (format_id : U -> string)
  (dirname : string) (ids : list U) (j n : nat) :
  length (figure_names format_id dirname ids j n) =
  (2 * Nat.min n (length ids - j))%nat.
Proof.
  unfold figure_names. revert j. induction n as [|n IH]; intros j;
    [reflexivity|].
  cbn [seq flat_map]. rewrite length_app, IH.
  destruct (ids !! j) as [u|] eqn:Hj.
  - apply lookup_lt_Some in Hj. cbn [length]. lia.
  - apply lookup_ge_None_1 in Hj. cbn [length]. lia.
Qed.

Section HealthyLoop.

Variable U : Type.
Variable format_id : U -> string.
Variable w : World.
Hypothesis plot_ok : forall p, plot_error w p = None.
Hypothesis savefig_ok : forall p, savefig_error w p = None.

Variable steps : nat.
Variable dirname : string.
Variable ids : list U.

Lemma save_example_healthy (j : nat)
  (item : tensor2 * tensor2 * tensor2 * tensor2) (fs : FileSystem) :
  reshapable (fst (fst (fst item))) -> reshapable (snd (fst (fst item))) ->
  reshapable (snd (fst item)) ->
  match ids !! j with
  | Some u =>
      exists fs1,
        save_example U format_id w steps dirname ids (j, item) fs =
        (fs1, Ok tt)
        /\ written fs1 =
           (written fs ++
            [os_path_join dirname (format_id u ++ ".png");
             os_path_join dirname (pretty j ++ "_alignment.png")])%list
  | None =>
      save_example U format_id w steps dirname ids (j, item) fs =
      (fs, Raise IndexError)
  end.
Proof.
  destruct item as [[[gt before] after] al]. cbn [fst snd].
  intros Hg Hb Ha.
  destruct (tf_reshape_80_reshapable _ Hg) as [gt' Hgt].
  destruct (tf_reshape_80_reshapable _ Hb) as [before' Hbefore].
  destruct (tf_reshape_80_reshapable _ Ha) as [after' Hafter].
  unfold save_example, io_bind, lift, plot, plt_savefig, check, io_ret.
  rewrite Hgt, Hbefore, Hafter.
  destruct (ids !! j) as [u|]; [|reflexivity].
  rewrite !plot_ok, !savefig_ok. unfold io_bind. cbv beta iota zeta.
  eexists. split; [reflexivity|].
  cbn [written]. rewrite <- app_assoc. reflexivity.
Qed.

Lemma for_each_save_example
  (items : list (tensor2 * tensor2 * tensor2 * tensor2)) (j : nat)
  (fs : FileSystem) :
  Forall (fun item : tensor2 * tensor2 * tensor2 * tensor2 =>
            reshapable (fst (fst (fst item)))
            /\ reshapable (snd (fst (fst item)))
            /\ reshapable (snd (fst item))) items ->
  let r := for_each (save_example U format_id w steps dirname ids)
             (zip_with pair (seq j (length items)) items) fs in
  snd r = (if (j + length items <=? length ids)%nat
              || (length items =? 0)%nat
           then Ok tt else Raise IndexError)
  /\ written (fst r) =
     (written fs ++ figure_names format_id dirname ids j (length items))%list.
Proof.
  intros Hok. revert j fs.
  induction Hok as [|item items [Hg [Hb Ha]] _ IH]; intros j fs.
  - simpl. rewrite orb_true_r, app_nil_r. split; reflexivity.
  - cbn [length seq zip_with for_each]. unfold io_bind.
    pose proof (save_example_healthy j item fs Hg Hb Ha) as Hbody.
    unfold figure_names. cbn [seq flat_map].
    fold (figure_names format_id dirname ids (S j) (length items)).
    destruct (ids !! j) as [u|] eqn:Hj.
    + destruct Hbody as [fs1 [-> Hw1]].
      destruct (IH (S j) fs1) as [Hr Hw]. split.
      * rewrite Hr. apply lookup_lt_Some in Hj.
        replace (S j + length items)%nat with (j + S (length items))%nat
          by lia.
        rewrite orb_false_r.
        destruct (Nat.leb_spec (j + S (length items)) (length ids));
          [reflexivity|].
        destruct (Nat.eqb_spec (length items) 0); [lia|reflexivity].
      * rewrite Hw, Hw1, <- app_assoc. reflexivity.
    + rewrite Hbody. apply lookup_ge_None_1 in Hj. cbn [fst snd]. split.
      * rewrite orb_false_r.
        replace (j + S (length items) <=? length ids)%nat with false;
          [reflexivity|].
        symmetry. apply Nat.leb_gt. lia.
      * rewrite figure_names_beyond by lia. rewrite !app_nil_r.
        reflexivity.
Qed.

End HealthyLoop.

(** X13. When no collaborator fails and every mel example holds a multiple
    of 80 values, the method creates the output directory if it is missing
    and saves, for each example in turn, the mel figure named after its
    utterance id and then the alignment figure named after its index, for as
    many examples as the shortest of the four arrays holds.  With
    at least as many utterance ids as examples it returns; with fewer it
    raises IndexError at the first example without id, after the figures of
    the examples before it have been saved. *)
Theorem renderer_saves_two_figures_per_example (U : Type)
  (format_id : U -> string) (w : World) (config : gmap string pyval)
  (steps : nat) (batch : Batch U) (fs : FileSystem)
  (d m a g : obj tensor3) (s : obj tensor2) (u : obj (list U))
  (mbs mas gts als : tensor3) (ids : list U) (outdir : string) :
  healthy w ->
  one_step_predict w = Ok (d, m, s, a) ->
  mel_gts U batch = Some g -> utt_ids U batch = Some u ->
  convert U d m g a u = Ok (mbs, mas, gts, als, ids) ->
  config !! "outdir" = Some (PyStr outdir) ->
  Forall reshapable gts -> Forall reshapable mbs -> Forall reshapable mas ->
  let dirname :=
    os_path_join outdir ("predictions/" ++ pretty steps ++ "steps") in
  let n := Nat.min (Nat.min (Nat.min (length gts) (length mbs))
                       (length mas)) (length als) in
  let r := generate_and_save_intermediate_result U format_id w config steps
             batch fs in
  snd r = (if (n <=? length ids)%nat then Ok tt else Raise IndexError)
  /\ written (fst r) =
     (written fs ++ figure_names format_id dirname ids 0 n)%list
  /\ length (figure_names format_id dirname ids 0 n) =
     (2 * Nat.min n (length ids))%nat
  /\ dirname ∈ existing (fst r).
Proof.
  intros (Himp & Hmk & Hplot & Hsave) Hpred Hg Hu Hconv Hout Hgts Hmbs Hmas
    dirname n r.
  pose proof (Forall_zip4_reshapable gts mbs mas als Hgts Hmbs Hmas) as Hok.
  assert (Hn : length (zip4 gts mbs mas als) = n).
  { unfold zip4, n. rewrite !length_zip_with. reflexivity. }
  assert (Hrun : exists fs1,
    written fs1 = written fs /\ dirname ∈ existing fs1
    /\ r = for_each (save_example U format_id w steps dirname ids)
             (zip_with pair (seq 0 n) (zip4 gts mbs mas als)) fs1).
  { unfold r, generate_and_save_intermediate_result, io_bind, check, lift,
      io_ret, os_path_exists, os_makedirs, getitem, enumerate.
    rewrite Himp, Hpred, Hg, Hu, Hconv, Hout. fold dirname. rewrite Hn.
    destruct (bool_decide (dirname ∈ existing fs)) eqn:Hex.
    - exists fs. split; [reflexivity|].
      split; [exact (bool_decide_eq_true_1 _ Hex)|reflexivity].
    - unfold io_bind, check, lift, io_ret. rewrite Hmk.
      eexists. split; [|split; [|reflexivity]]; simpl; [reflexivity|].
      set_solver. }
  destruct Hrun as (fs1 & Hw1 & Hd1 & Hr).
  destruct (for_each_save_example U format_id w Hplot Hsave steps dirname
              ids _ 0 fs1 Hok) as [Hres Hwr].
  rewrite Hn in Hres, Hwr. rewrite <- Hr in Hres, Hwr.
  split; [|split; [|split]].
  - rewrite Hres. cbn [Nat.add].
    destruct (Nat.leb_spec n (length ids)); [reflexivity|].
    destruct (Nat.eqb_spec n 0); [lia|reflexivity].
  - rewrite Hwr, Hw1. reflexivity.
  - rewrite length_figure_names. rewrite Nat.sub_0_r. reflexivity.
  - rewrite Hr.
    pose proof (io_grows_for_each
                  (save_example U format_id w steps dirname ids)
                  (zip_with pair (seq 0 n) (zip4 gts mbs mas als))
                  (io_grows_save_example U format_id w steps dirname ids)
                  fs1) as [Hsub _].
    set_solver.
Qed.

Lemma healthy_world_plain : healthy world_plain.
Proof. repeat split. Defined.

Lemma renderer_saves_two_figures_per_example_witness :
  let dirname :=
    os_path_join "exp" ("predictions/" ++ pretty 0%nat ++ "steps") in
  let n := Nat.min (Nat.min (Nat.min (length mel_80) (length mel_80))
                       (length mel_80)) (length [[[1]]]) in
  let r := generate_and_save_intermediate_result string (fun s => s)
             world_plain config_dynamic 0 batch_plain fs_empty in
  snd r = (if (n <=? length ["utt0"])%nat then Ok tt else Raise IndexError)
  /\ written (fst r) =
     (written fs_empty ++
      figure_names (fun s => s) dirname ["utt0"] 0 n)%list
  /\ length (figure_names (fun s : string => s) dirname ["utt0"] 0 n) =
     (2 * Nat.min n (length ["utt0"]))%nat
  /\ dirname ∈ existing (fst r).
Proof.
  apply (renderer_saves_two_figures_per_example string (fun s => s)
           world_plain config_dynamic 0 batch_plain fs_empty
           (Tensor mel_80) (Tensor mel_80) (Tensor [[[1]]]) (Tensor mel_80)
           (Tensor [[0]]) (Tensor ["utt0"])
           mel_80 mel_80 mel_80 [[[1]]] ["utt0"] "exp");
    try reflexivity; try exact healthy_world_plain;
    repeat constructor.
Defined.

(** X14. [os.makedirs] is called only for a missing directory: when the
    output directory of the step already exists, the outcome of the method
    does not depend on what [os.makedirs] would have done. *)
Theorem existing_directory_is_not_created (U : Type)
  (format_id : U -> string) (w : World) (config : gmap string pyval)
  (steps : nat) (batch : Batch U) (fs : FileSystem) (outdir : string)
  (f : string -> option exn) :
  config !! "outdir" = Some (PyStr outdir) ->
  os_path_join outdir ("predictions/" ++ pretty steps ++ "steps")
    ∈ existing fs ->
  generate_and_save_intermediate_result U format_id
    (with_makedirs_error w f) config steps batch fs =
  generate_and_save_intermediate_result U format_id w config steps batch fs.
Proof.
  intros Hout Hdir.
  unfold generate_and_save_intermediate_result, io_bind, check, lift,
    io_ret, os_path_exists, getitem.
  cbn [with_makedirs_error import_pyplot one_step_predict].
  destruct (import_pyplot w); [reflexivity|].
  destruct (one_step_predict w) as [[[[d m] s] a]|e]; [|reflexivity].
  destruct (mel_gts U batch) as [g|]; [|reflexivity].
  destruct (utt_ids U batch) as [u|]; [|reflexivity].
  destruct (convert U d m g a u) as [[[[[mbs mas] gts] als] ids]|e];
    [|reflexivity].
  rewrite Hout, (bool_decide_eq_true_2 _ Hdir). reflexivity.
Qed.

Lemma existing_directory_is_not_created_witness :
  generate_and_save_intermediate_result string (fun s => s)
    (with_makedirs_error world_plain (fun _ => Some OSError))
    config_dynamic 0 batch_plain fs_ready =
  generate_and_save_intermediate_result string (fun s => s) world_plain
    config_dynamic 0 batch_plain fs_ready.
Proof.
  apply (existing_directory_is_not_created string (fun s => s) world_plain
           config_dynamic 0 batch_plain fs_ready "exp"); reflexivity.
Defined.

(** ** The step methods *)

Import TrainerSteps.

Section StepFacts.

Variable Rest : Type.
Variable call_one_step_forward :
  callable -> gmap string value -> Rest -> Rest * result unit.
Variable _check_train_finish : Z -> Rest -> Rest * result unit.

Lemma train_step_Ok (batch : gmap string value) (self : Trainer Rest)
  (r1 r2 : Rest) :
  let c := if is_False (already_apply_input_signature Rest self)
           then RelaxedShapes else one_step_forward Rest self in
  call_one_step_forward c batch (rest Rest self) = (r1, Ok tt) ->
  _check_train_finish (steps Rest self + 1)%Z r1 = (r2, Ok tt) ->
  exists self',
    _train_step Rest call_one_step_forward _check_train_finish batch self =
    (self', Ok tt)
    /\ steps Rest self' = (steps Rest self + 1)%Z
    /\ tqdm Rest self' = (tqdm Rest self + 1)%Z
    /\ rest Rest self' = r2
    /\ one_step_forward Rest self' = c
    /\ is_False (already_apply_input_signature Rest self') = false.
Proof.
  intros c Hcall Hcheck. unfold _train_step. subst c.
  destruct (is_False (already_apply_input_signature Rest self)) eqn:Hf;
    cbn [one_step_forward rest steps] in *;
    rewrite Hcall; cbn [steps rest]; rewrite Hcheck;
    eexists; (split; [reflexivity|]);
    cbn [steps tqdm rest one_step_forward already_apply_input_signature];
    repeat split; try reflexivity; exact Hf.
Qed.

End StepFacts.

Section StepTheorems.

Variable Rest : Type.
Variable call_one_step_forward :
  callable -> gmap string value -> Rest -> Rest * result unit.
Variable _check_train_finish : Z -> Rest -> Rest * result unit.

(** X15. When the forward pass and the finish check never raise, running
    [_train_step] over a list of batches returns, and has advanced both the
    step counter and the progress bar by the number of batches. *)
Theorem train_steps_count_batches :
  (forall c b r, exists r', call_one_step_forward c b r = (r', Ok tt)) ->
  (forall z r, exists r', _check_train_finish z r = (r', Ok tt)) ->
  forall (batches : list (gmap string value)) (self : Trainer Rest),
  exists self',
    train_steps Rest call_one_step_forward _check_train_finish batches self =
    (self', Ok tt)
    /\ steps Rest self' = (steps Rest self + Z.of_nat (length batches))%Z
    /\ tqdm Rest self' = (tqdm Rest self + Z.of_nat (length batches))%Z.
Proof.
  intros Hcall Hcheck batches.
  induction batches as [|batch batches IH]; intros self.
  - exists self. simpl. repeat split; lia.
  - cbn [train_steps].
    destruct (Hcall
                (if is_False (already_apply_input_signature Rest self)
                 then RelaxedShapes else one_step_forward Rest self)
                batch (rest Rest self)) as [r1 H1].
    destruct (Hcheck (steps Rest self + 1)%Z r1) as [r2 H2].
    destruct (train_step_Ok Rest call_one_step_forward _check_train_finish
                batch self r1 r2 H1 H2)
      as (self1 & -> & Hs & Ht & _).
    destruct (IH self1) as (self' & -> & Hs' & Ht').
    exists self'. split; [reflexivity|].
    cbn [length]. rewrite Hs', Ht', Hs, Ht. lia.
Qed.

(** X16. A step whose forward pass raises is not counted: the exception
    leaves [_train_step] with the step counter and the progress bar as they
    were.  A step whose finish check raises has already been counted. *)
Theorem failed_forward_is_not_counted (batch : gmap string value)
  (self : Trainer Rest) :
  let c := if is_False (already_apply_input_signature Rest self)
           then RelaxedShapes else one_step_forward Rest self in
  let r := _train_step Rest call_one_step_forward _check_train_finish batch
             self in
  (forall r1 e,
     call_one_step_forward c batch (rest Rest self) = (r1, Raise e) ->
     snd r = Raise e
     /\ steps Rest (fst r) = steps Rest self
     /\ tqdm Rest (fst r) = tqdm Rest self)
  /\ (forall r1 r2 e,
        call_one_step_forward c batch (rest Rest self) = (r1, Ok tt) ->
        _check_train_finish (steps Rest self + 1)%Z r1 = (r2, Raise e) ->
        snd r = Raise e
        /\ steps Rest (fst r) = (steps Rest self + 1)%Z
        /\ tqdm Rest (fst r) = (tqdm Rest self + 1)%Z).
Proof.
  intros c r. subst c r. unfold _train_step.
  destruct (is_False (already_apply_input_signature Rest self));
    cbn [one_step_forward rest steps];
    (split; [intros r1 e Hc|intros r1 r2 e Hc Hk]); rewrite Hc;
    cbn [steps rest]; try rewrite Hk; repeat split; reflexivity.
Qed.

(** X17. The three step functions are wrapped at most once: after any call
    of [_train_step], returning or raising, the flag is no longer False, and
    a later call leaves the flag and the three function objects as it found
    them. *)
Theorem step_functions_are_wrapped_once (b1 b2 : gmap string value)
  (self : Trainer Rest) :
  let self1 :=
    fst (_train_step Rest call_one_step_forward _check_train_finish b1 self)
  in
  let self2 :=
    fst (_train_step Rest call_one_step_forward _check_train_finish b2 self1)
  in
  is_False (already_apply_input_signature Rest self1) = false
  /\ (is_False (already_apply_input_signature Rest self) = true ->
      already_apply_input_signature Rest self1 = PyBool true
      /\ one_step_forward Rest self1 = RelaxedShapes
      /\ one_step_evaluate Rest self1 = RelaxedShapes
      /\ one_step_predict Rest self1 = RelaxedShapes)
  /\ already_apply_input_signature Rest self2 =
     already_apply_input_signature Rest self1
  /\ one_step_forward Rest self2 = one_step_forward Rest self1
  /\ one_step_evaluate Rest self2 = one_step_evaluate Rest self1
  /\ one_step_predict Rest self2 = one_step_predict Rest self1.
Proof.
  assert (Hkeep : forall b s,
    is_False (already_apply_input_signature Rest s) = false ->
    let s' := fst (_train_step Rest call_one_step_forward
                     _check_train_finish b s) in
    already_apply_input_signature Rest s' = already_apply_input_signature Rest s
    /\ one_step_forward Rest s' = one_step_forward Rest s
    /\ one_step_evaluate Rest s' = one_step_evaluate Rest s
    /\ one_step_predict Rest s' = one_step_predict Rest s).
  { intros b s Hf. unfold _train_step. rewrite Hf.
    destruct (call_one_step_forward (one_step_forward Rest s) b
                (rest Rest s)) as [r1 [[]|e]]; [|repeat split; reflexivity].
    cbn [steps rest].
    destruct (_check_train_finish (steps Rest s + 1)%Z r1);
      repeat split; reflexivity. }
  assert (Hflag :
    is_False (already_apply_input_signature Rest
      (fst (_train_step Rest call_one_step_forward _check_train_finish b1
              self))) = false
    /\ (is_False (already_apply_input_signature Rest self) = true ->
        let s' := fst (_train_step Rest call_one_step_forward
                         _check_train_finish b1 self) in
        already_apply_input_signature Rest s' = PyBool true
        /\ one_step_forward Rest s' = RelaxedShapes
        /\ one_step_evaluate Rest s' = RelaxedShapes
        /\ one_step_predict Rest s' = RelaxedShapes)).
  { unfold _train_step.
    destruct (is_False (already_apply_input_signature Rest self)) eqn:Hf;
      cbn [one_step_forward rest];
      match goal with
      | |- context [call_one_step_forward ?c b1 ?x] =>
          destruct (call_one_step_forward c b1 x) as [r1 [[]|e]]
      end; cbn [steps rest];
      try match goal with
      | |- context [_check_train_finish ?z ?x] =>
          destruct (_check_train_finish z x)
      end;
      cbn [fst already_apply_input_signature one_step_forward
           one_step_evaluate one_step_predict is_False];
      split; try reflexivity; try exact Hf; try discriminate;
      intros _; repeat split; reflexivity. }
  intros self1 self2. destruct Hflag as [Hf1 Hwrap].
  split; [exact Hf1|]. split; [exact Hwrap|].
  exact (Hkeep b2 self1 Hf1).
Qed.

End StepTheorems.

Lemma train_steps_count_batches_witness :
  exists self',
    train_steps unit (fun _ _ r => (r, Ok tt)) (fun _ r => (r, Ok tt))
      [batch_2; batch_masked; batch_2]
      {| already_apply_input_signature := PyBool false;
         one_step_forward := Inherited; one_step_evaluate := Inherited;
         one_step_predict := Inherited; steps := 10; tqdm := 10;
         rest := tt |} =
    (self', Ok tt)
    /\ steps unit self' = (10 + Z.of_nat 3)%Z
    /\ tqdm unit self' = (10 + Z.of_nat 3)%Z.
Proof.
  apply (train_steps_count_batches unit (fun _ _ r => (r, Ok tt))
           (fun _ r => (r, Ok tt))).
  - intros c b r. exists r. reflexivity.
  - intros z r. exists r. reflexivity.
Defined.

Lemma failed_forward_is_not_counted_witness :
  let self :=
    {| already_apply_input_signature := PyBool false;
       one_step_forward := Inherited; one_step_evaluate := Inherited;
       one_step_predict := Inherited; steps := 10%Z; tqdm := 10%Z;
       rest := 0%nat |} in
  let r := _train_step nat
             (fun _ _ n => (S n, Raise InvalidArgumentError))
             (fun _ n => (n, Ok tt)) batch_2 self in
  snd r = Raise InvalidArgumentError
  /\ steps nat (fst r) = 10%Z /\ tqdm nat (fst r) = 10%Z.
Proof.
  intros self r.
  apply (proj1 (failed_forward_is_not_counted nat
                  (fun _ _ n => (S n, Raise InvalidArgumentError))
                  (fun _ n => (n, Ok tt)) batch_2 self) 1%nat).
  reflexivity.
Defined.

Section EvaluateFacts.

Variable Rest : Type.
Variable _model : gmap string value -> bool -> Rest -> result Outputs.
Variable update_eval_metrics :
  gmap string (list tfloat) -> Rest -> result Rest.
Variable config : gmap string pyval.

(** X18. [_one_step_evaluate_per_replica] returns only after the model has
    been run in training mode, the losses have been computed, and the
    evaluation metrics have been updated with a dictionary whose keys are
    exactly [list_metrics_name].  On a batch that lacks mel_gts, mel_lengths
    or g_attentions it raises, whatever the model returns. *)
Theorem evaluate_updates_with_the_named_metrics
  (batch : gmap string value) (r : Rest) :
  (forall r' : Rest,
     _one_step_evaluate_per_replica Rest _model update_eval_metrics config
       batch r = Ok r' ->
     exists outputs per metrics,
       _model batch true r = Ok outputs
       /\ compute_per_example_losses config batch outputs = Ok (per, metrics)
       /\ dom metrics = list_to_set list_metrics_name
       /\ update_eval_metrics metrics r = Ok r')
  /\ (forall key : string,
        In key required_keys -> batch !! key = None ->
        exists e,
          _one_step_evaluate_per_replica Rest _model update_eval_metrics
            config batch r = Raise e).
Proof.
  unfold _one_step_evaluate_per_replica. split.
  - intros r' H.
    apply bind_Ok_inv in H as [outputs [Hm H]].
    apply bind_Ok_inv in H as [[per metrics] [Hc H]].
    exists outputs, per, metrics.
    split; [exact Hm|]. split; [exact Hc|].
    split; [exact (compute_per_example_losses_dom _ _ _ _ _ Hc)|exact H].
  - intros key Hin Hkey.
    destruct (_model batch true r) as [outputs|e]; simpl;
      [|exists e; reflexivity].
    destruct (compute_per_example_losses_missing config batch outputs key
                Hin Hkey) as [e ->].
    exists e. reflexivity.
Qed.

End EvaluateFacts.

Lemma evaluate_updates_with_the_named_metrics_witness :
  (exists outputs per metrics,
     Ok outputs_2 = Ok outputs
     /\ compute_per_example_losses config_dynamic batch_2 outputs =
        Ok (per, metrics)
     /\ dom metrics = list_to_set list_metrics_name
     /\ Ok tt = Ok tt)
  /\ exists e,
       _one_step_evaluate_per_replica unit (fun _ _ _ => Ok outputs_2)
         (fun _ r => Ok r) config_dynamic batch_wide tt = Raise e.
Proof.
  split.
  - apply (proj1 (evaluate_updates_with_the_named_metrics unit
                    (fun _ _ _ => Ok outputs_2) (fun _ r => Ok r)
                    config_dynamic batch_2 tt) tt).
    unfold _one_step_evaluate_per_replica.
    destruct (compute_per_example_losses_aligned _ _ _ _ _ _ _ _ _ _
                aligned_2) as [Heq _].
    cbn [bind]. unfold outputs_2 at 1. rewrite Heq. reflexivity.
  - apply (proj2 (evaluate_updates_with_the_named_metrics unit
                    (fun _ _ _ => Ok outputs_2) (fun _ r => Ok r)
                    config_dynamic batch_wide tt) "mel_gts").
    + left. reflexivity.
    + reflexivity.
Defined.

(** ** Loss terms of different batch sizes *)

Lemma broadcast_incompatible {A B C : Type} (f : A -> B -> result C)
  (xs : list A) (ys : list B) :
  length xs <> length ys -> length xs <> 1%nat -> length ys <> 1%nat ->
  broadcast f xs ys = Raise InvalidArgumentError.
Proof.
  intros Hne Hx Hy. unfold broadcast.
  apply Nat.eqb_neq in Hne. rewrite Hne.
  destruct xs as [|x [|x' xs]]; destruct ys as [|y [|y' ys]];
    simpl in *; try reflexivity; try contradiction; try lia.
Qed.

Lemma compute_per_example_losses_terms (config : gmap string pyval)
  (batch : gmap string value)
  (decoder_output post_mel_outputs : tensor3)
  (stop_token_predictions : tensor2) (alignment_historys : tensor3)
  (mel_gts : tensor3) (mel_lengths : list Z) (g_attentions : tensor3)
  (m : int_tensor) :
  batch !! "mel_gts" = Some (VFloat3 mel_gts) ->
  batch !! "mel_lengths" = Some (VInt1 mel_lengths) ->
  batch !! "g_attentions" = Some (VFloat3 g_attentions) ->
  max_mel_length_tensor config batch = Ok m ->
  (0 <= tf_reduce_max m)%Z ->
  same_shape3 mel_gts decoder_output = true ->
  same_shape3 mel_gts post_mel_outputs = true ->
  length stop_token_predictions = length mel_lengths ->
  Forall (fun row : list R => length row = Z.to_nat (tf_reduce_max m))
    stop_token_predictions ->
  same_shape3 alignment_historys g_attentions = true ->
  length mel_gts = length mel_lengths ->
  let st := zip_with stop_loss_example
              (map (stop_row (tf_reduce_max m)) mel_lengths)
              stop_token_predictions in
  let mb := zip_with mel_loss_example mel_gts decoder_output in
  let ma := zip_with mel_loss_example mel_gts post_mel_outputs in
  let la := zip_with att_example alignment_historys g_attentions in
  let s := zip_with tf_add (zip_with tf_add st mb) ma in
  compute_per_example_losses config batch
    (decoder_output, post_mel_outputs, stop_token_predictions,
     alignment_historys) =
  (let* per := broadcast (pure2 tf_add) s la in
   Ok (per, dict_metrics_losses st mb ma la))
  /\ length st = length mel_lengths /\ length mb = length mel_lengths
  /\ length ma = length mel_lengths
  /\ length la = length g_attentions.
Proof.
  intros Hgts Hls Hg Hm HT Hdec Hpost Hsb Hst Hal Hbm st mb ma la s.
  pose proof (same_shape2_stop_gts _ _ _ Hsb Hst) as Hstop.
  assert (Lst : length st = length mel_lengths).
  { unfold st. rewrite length_zip_with, length_map. lia. }
  assert (Lmb : length mb = length mel_lengths).
  { unfold mb. rewrite length_zip_with. apply all2_length in Hdec. lia. }
  assert (Lma : length ma = length mel_lengths).
  { unfold ma. rewrite length_zip_with. apply all2_length in Hpost. lia. }
  split; [|repeat split; try assumption].
  - unfold compute_per_example_losses, getitem. rewrite Hgts. simpl.
    rewrite (calculate_3d_loss_mae _ _ Hdec). simpl.
    rewrite (calculate_3d_loss_mae _ _ Hpost). simpl.
    rewrite (stop_gts_closed _ _ _ _ Hls Hm HT). simpl.
    rewrite (calculate_2d_loss_bce _ _ Hstop). simpl.
    rewrite (loss_att_closed _ _ _ Hg Hal). simpl.
    fold st mb ma la.
    rewrite broadcast_pure2 by lia. simpl.
    rewrite broadcast_pure2 by (rewrite length_zip_with; lia).
    reflexivity.
  - unfold la. rewrite length_zip_with. apply all2_length in Hal. lia.
Qed.

(** X19. The four terms are added under broadcasting.  When the mel and
    stop-token tensors are aligned for B examples but the alignment and its
    prior hold a single example, the call returns B losses: the sum
    stop_token_loss + mel_loss_before + mel_loss_after of each example, with
    the one guided-attention loss added to every one of them.  When they
    hold another number of examples, different from 1 and from B (with B
    not 1), the sum raises InvalidArgumentError. *)
Theorem attention_term_of_another_batch_size (config : gmap string pyval)
  (batch : gmap string value)
  (decoder_output post_mel_outputs : tensor3)
  (stop_token_predictions : tensor2) (alignment_historys : tensor3)
  (mel_gts : tensor3) (mel_lengths : list Z) (g_attentions : tensor3)
  (m : int_tensor) :
  batch !! "mel_gts" = Some (VFloat3 mel_gts) ->
  batch !! "mel_lengths" = Some (VInt1 mel_lengths) ->
  batch !! "g_attentions" = Some (VFloat3 g_attentions) ->
  max_mel_length_tensor config batch = Ok m ->
  (0 <= tf_reduce_max m)%Z ->
  same_shape3 mel_gts decoder_output = true ->
  same_shape3 mel_gts post_mel_outputs = true ->
  length stop_token_predictions = length mel_lengths ->
  Forall (fun row : list R => length row = Z.to_nat (tf_reduce_max m))
    stop_token_predictions ->
  same_shape3 alignment_historys g_attentions = true ->
  length mel_gts = length mel_lengths ->
  let outputs := (decoder_output, post_mel_outputs, stop_token_predictions,
                  alignment_historys) in
  (forall (a g : tensor2),
     alignment_historys = [a] -> g_attentions = [g] ->
     exists per metrics st mb ma,
       compute_per_example_losses config batch outputs = Ok (per, metrics)
       /\ metrics !! "stop_token_loss" = Some st
       /\ metrics !! "mel_loss_before" = Some mb
       /\ metrics !! "mel_loss_after" = Some ma
       /\ metrics !! "guided_attention_loss" = Some [att_example a g]
       /\ length st = length mel_lengths /\ length mb = length mel_lengths
       /\ length ma = length mel_lengths
       /\ per = map (fun x => tf_add x (att_example a g))
                  (zip_with tf_add (zip_with tf_add st mb) ma))
  /\ (length g_attentions <> 1%nat -> length mel_lengths <> 1%nat ->
      length g_attentions <> length mel_lengths ->
      compute_per_example_losses config batch outputs =
      Raise InvalidArgumentError).
Proof.
  intros Hgts Hls Hg Hm HT Hdec Hpost Hsb Hst Hal Hbm outputs.
  destruct (compute_per_example_losses_terms _ _ _ _ _ _ _ _ _ _
              Hgts Hls Hg Hm HT Hdec Hpost Hsb Hst Hal Hbm)
    as (Heq & Lst & Lmb & Lma & Lla).
  unfold outputs. rewrite Heq. clear Heq. split.
  - intros a g -> ->. cbn [zip_with].
    rewrite broadcast_stretch_r. cbn [bind].
    eexists _, _, _, _, _. split; [reflexivity|].
    repeat split; try assumption; reflexivity.
  - intros H1 HB Hne.
    match goal with
    | |- context [broadcast _ ?s _] =>
        assert (Ls : length s = length mel_lengths)
          by (rewrite length_zip_with, Lma, length_zip_with, Lst, Lmb; lia)
    end.
    rewrite broadcast_incompatible; [reflexivity|rewrite ?Ls, ?Lla; lia..].
Qed.

Lemma attention_term_of_another_batch_size_witness :
  (exists per metrics st mb ma,
     compute_per_example_losses config_dynamic batch_one_prior
       (mel_gts_2, mel_gts_2, [[-4; 4]; [-4; -4]], [[[1; 0]; [0; 1]]]) =
     Ok (per, metrics)
     /\ metrics !! "stop_token_loss" = Some st
     /\ metrics !! "mel_loss_before" = Some mb
     /\ metrics !! "mel_loss_after" = Some ma
     /\ metrics !! "guided_attention_loss" =
        Some [att_example [[1; 0]; [0; 1]] [[0; 1]; [-1; -1]]]
     /\ length st = length mel_lengths_2 /\ length mb = length mel_lengths_2
     /\ length ma = length mel_lengths_2
     /\ per =
        map (fun x =>
               tf_add x (att_example [[1; 0]; [0; 1]] [[0; 1]; [-1; -1]]))
          (zip_with tf_add (zip_with tf_add st mb) ma))
  /\ compute_per_example_losses config_dynamic batch_three_priors
       (mel_gts_2, mel_gts_2, [[-4; 4]; [-4; -4]],
        [[[1]]; [[1]]; [[1]]]) =
     Raise InvalidArgumentError.
Proof.
  split.
  - apply (proj1 (attention_term_of_another_batch_size config_dynamic
                    batch_one_prior mel_gts_2 mel_gts_2
                    [[-4; 4]; [-4; -4]] [[[1; 0]; [0; 1]]]
                    mel_gts_2 mel_lengths_2 [[[0; 1]; [-1; -1]]] (Scalar 2)
                    eq_refl eq_refl eq_refl eq_refl ltac:(simpl; lia)
                    eq_refl eq_refl eq_refl
                    ltac:(repeat constructor) eq_refl eq_refl));
      reflexivity.
  - apply (proj2 (attention_term_of_another_batch_size config_dynamic
                    batch_three_priors mel_gts_2 mel_gts_2
                    [[-4; 4]; [-4; -4]] [[[1]]; [[1]]; [[1]]]
                    mel_gts_2 mel_lengths_2 [[[0]]; [[0]]; [[0]]] (Scalar 2)
                    eq_refl eq_refl eq_refl eq_refl ltac:(simpl; lia)
                    eq_refl eq_refl eq_refl
                    ltac:(repeat constructor) eq_refl eq_refl));
      simpl; lia.
Defined.
